(** * Fashion Studio ETL pipeline: extraction, normalisation, validation, load

    A shallow embedding of [utils/extract.py], [utils/transform.py],
    [utils/load.py] and [main.py], and the properties of the pipeline proved
    over it.

    Conventions of the embedding.
    - A Python [str] is the list of its code points ([pystr]); [py "..."]
      decodes a UTF-8 literal.
    - [None] is [None]: an [Optional[str]] argument is an [option pystr].
    - A raising call is a [Raise] in the [result] monad.
    - A Python [float] is an IEEE-754 binary64 value ([spec_float] with
      precision 53 and maximal exponent 1024), rounded to nearest-even.
    - [re], [str] methods, [int()] and [float()] consult CPython's Unicode
      tables; they are the fields of the class [Runtime], so that every
      universally quantified statement holds whatever those tables are
      (all that is asked of them is that the full stop is not a digit).
    - BeautifulSoup is a collaborator: the cards it finds in a page, and the
      elements it finds in a card, are given by a function of the page. So
      is the transport: [fetch_webpage] is a function of the address.
    - A pandas frame is the list of its rows, each with its index label; a
      cell holds the Python value that was put in it.
    - A CSV file is the list of the rows written to it.
    Console output, the pause between two pages and failures of the file
    system are left out. *)

From Stdlib Require Import ZArith NArith List Bool Ascii String Lia.
From Stdlib Require Import Floats.SpecFloat.
From stdpp Require Import gmap strings list pretty.

Set Default Proof Using "Type".

(** ** Python values *)

Module Py.

Abbreviation pystr := (list N).

(** UTF-8 decoding of a literal of the development into code points. *)
Fixpoint utf8 (bs : list N) : pystr :=
  match bs with
  | [] => []
  | b :: t =>
    if (b <? 128)%N then b :: utf8 t
    else if (b <? 224)%N then
      match t with
      | b1 :: t1 => ((b - 192) * 64 + (b1 - 128))%N :: utf8 t1
      | [] => [b]
      end
    else if (b <? 240)%N then
      match t with
      | b1 :: b2 :: t2 =>
        ((b - 224) * 4096 + (b1 - 128) * 64 + (b2 - 128))%N :: utf8 t2
      | _ => b :: t
      end
    else
      match t with
      | b1 :: b2 :: b3 :: t3 =>
        ((b - 240) * 262144 + (b1 - 128) * 4096 + (b2 - 128) * 64
         + (b3 - 128))%N :: utf8 t3
      | _ => b :: t
      end
  end.

Definition py (s : string) : pystr :=
  utf8 (map N_of_ascii (list_ascii_of_string s)).

(** Exceptions that the modelled code can raise. *)
Inductive exn := ValueError | UnboundLocalError.

Inductive result (A : Type) :=
  | Ok (a : A)
  | Raise (e : exn).
Arguments Ok {A} a.
Arguments Raise {A} e.

#[global] Instance result_ret : MRet result := fun A a => Ok a.
#[global] Instance result_bind : MBind result := fun A B k r =>
  match r with
  | Ok a => k a
  | Raise e => Raise e
  end.
#[global] Instance result_fmap : FMap result := fun A B f r =>
  match r with
  | Ok a => Ok (f a)
  | Raise e => Raise e
  end.

(** The tables of the interpreter that the code consults. [decimal c] is the
    value of [c] when [c] is a decimal digit ([Py_UNICODE_TODECIMAL]),
    [isspace] is [Py_UNICODE_ISSPACE], [upper] and [lower] are [str.upper]
    and [str.lower], and [int_max_str_digits] is
    [sys.get_int_max_str_digits()] (0 switches the limit off). *)
Class Runtime := {
  decimal : N -> option N;
  isspace : N -> bool;
  upper : pystr -> pystr;
  lower : pystr -> pystr;
  int_max_str_digits : nat;
  (* the full stop is not a digit *)
  decimal_full_stop : decimal 46 = None
}.

(** The tables restricted to ASCII letters and digits, with the full list of
    blanks: an instance on which texts written in ASCII (and symbols that
    are neither letters, digits nor blanks) evaluate as in the interpreter.
    The limit on numerals is the interpreter's default. *)
Definition ascii_decimal (c : N) : option N :=
  if ((48 <=? c) && (c <=? 57))%N then Some (c - 48)%N else None.

Definition unicode_isspace (c : N) : bool :=
  ((9 <=? c) && (c <=? 13) || (28 <=? c) && (c <=? 32) || (c =? 133)
   || (c =? 160) || (c =? 5760) || (8192 <=? c) && (c <=? 8202)
   || (c =? 8232) || (c =? 8233) || (c =? 8239) || (c =? 8287)
   || (c =? 12288))%N.

Definition ascii_upper (c : N) : N :=
  if ((97 <=? c) && (c <=? 122))%N then (c - 32)%N else c.

Definition ascii_lower (c : N) : N :=
  if ((65 <=? c) && (c <=? 90))%N then (c + 32)%N else c.

Definition ascii_runtime : Runtime := {|
  decimal := ascii_decimal;
  isspace := unicode_isspace;
  upper := map ascii_upper;
  lower := map ascii_lower;
  int_max_str_digits := 4300;
  decimal_full_stop := eq_refl
|}.

(** ** [float] *)

Definition float := spec_float.
Definition prec : Z := 53.
Definition emax : Z := 1024.

Definition fzero : float := S754_zero false.
Definition float_of_Z (z : Z) : float := binary_normalize prec emax z 0 false.
Definition fmul : float -> float -> float := SFmul prec emax.
Definition fgt (x y : float) : bool := SFltb y x.
Definition fge (x y : float) : bool := SFleb y x.
Definition isnan (x : float) : bool :=
  match x with S754_nan => true | _ => false end.

(** The binary64 value nearest to [n / d], ties to even. *)
Definition float_of_ratio (n : N) (d : positive) : float :=
  match n with
  | N0 => fzero
  | Npos m => SFdiv prec emax (S754_finite false m 0) (S754_finite false d 0)
  end.

(** ** [str] methods *)

Section Str.
Context {R : Runtime}.

(** [not s], for an [Optional[str]]: [None] and the empty text are falsy. *)
Definition falsy (s : option pystr) : bool :=
  match s with
  | None | Some [] => true
  | Some (_ :: _) => false
  end.

Fixpoint lstrip (s : pystr) : pystr :=
  match s with
  | c :: t => if isspace c then lstrip t else s
  | [] => []
  end.

Definition rstrip (s : pystr) : pystr := rev (lstrip (rev s)).

Definition strip (s : pystr) : pystr := rstrip (lstrip s).

Fixpoint startswith (p s : pystr) : bool :=
  match p, s with
  | [], _ => true
  | a :: p', b :: s' => (a =? b)%N && startswith p' s'
  | _ :: _, [] => false
  end.

(** [sub in s] *)
Fixpoint contains (sub s : pystr) : bool :=
  startswith sub s ||
  match s with
  | [] => false
  | _ :: t => contains sub t
  end.

(** [s.replace(old, new)] for a non-empty [old]: every occurrence, left to
    right, without overlap. [skip] counts the characters of an occurrence
    that was just replaced and are still to be passed over. *)
Fixpoint replace_from (old new s : pystr) (skip : nat) : pystr :=
  match s with
  | [] => []
  | c :: t =>
    match skip with
    | S k => replace_from old new t k
    | O =>
      if startswith old s then new ++ replace_from old new t (length old - 1)
      else c :: replace_from old new t 0
    end
  end.

Definition replace (old new s : pystr) : pystr := replace_from old new s 0.

(** ** [float()] and [int()] on text *)

Definition isdecimal (c : N) : bool := bool_decide (is_Some (decimal c)).

Fixpoint decimals (s : pystr) : option (list N) :=
  match s with
  | [] => Some []
  | c :: t =>
    match decimal c, decimals t with
    | Some d, Some ds => Some (d :: ds)
    | _, _ => None
    end
  end.

Definition digits_value (ds : list N) : N :=
  fold_left (fun acc d => (acc * 10 + d)%N) ds 0%N.

Definition pow10 (n : nat) : positive := Nat.iter n (Pos.mul 10) 1%positive.

Fixpoint split_dot (s : pystr) : pystr * option pystr :=
  match s with
  | [] => ([], None)
  | c :: t =>
    if (c =? 46)%N then ([], Some t)
    else let '(a, b) := split_dot t in (c :: a, b)
  end.

(** [float(s)] for the spellings [digits], [digits.], [digits.digits] and
    [.digits], which are all that the normalisers pass to it: the nearest
    binary64 value of the decimal numeral. The other spellings that
    [float()] reads (signs, exponents, blanks, underscores, [inf], [nan])
    are not modelled and are reported like a malformed numeral. *)
Definition python_float (s : pystr) : result float :=
  let '(a, b) := split_dot s in
  match decimals a, decimals (default [] b) with
  | Some da, Some db =>
    match da ++ db with
    | [] => Raise ValueError
    | ds => Ok (float_of_ratio (digits_value ds) (pow10 (length db)))
    end
  | _, _ => Raise ValueError
  end.

(** The digits of an [int()] literal: a digit, then digits each preceded by at
    most one underscore. [prev] tells whether the previous character was a
    digit. *)
Fixpoint int_digits (prev : bool) (s : pystr) : option (list N) :=
  match s with
  | [] => if prev then Some [] else None
  | c :: t =>
    match decimal c with
    | Some d => cons d <$> int_digits true t
    | None => if (c =? 95)%N && prev then int_digits false t else None
    end
  end.

(** [int(s)]: blanks around, an optional sign, the digits; a numeral of more
    than [int_max_str_digits] digits is refused when the limit is on (the
    interpreter checks it for numerals of more than 640 digits only). *)
Definition python_int (s : pystr) : result Z :=
  let t := strip s in
  let '(neg, body) :=
    match t with
    | 43%N :: r => (false, r)
    | 45%N :: r => (true, r)
    | _ => (false, t)
    end in
  match int_digits false body with
  | Some ds =>
    if (640 <? length ds) && (0 <? int_max_str_digits)
       && (int_max_str_digits <? length ds)
    then Raise ValueError
    else Ok (if neg then - Z.of_N (digits_value ds) else Z.of_N (digits_value ds))%Z
  | None => Raise ValueError
  end.

End Str.

(** ** [re]: the fragment of the pattern language that the code uses

    A pattern is a sequence of items, each a set of characters under one of
    the greedy quantifiers; a group is a run of consecutive items. *)

Inductive cls :=
  | Digit                 (* \d *)
  | Space                 (* \s *)
  | Chr (c : N)           (* a literal character *)
  | Either (a b : cls).   (* [ab] *)

Inductive quant := One | Opt | Star | Plus.   (* x, x?, x*, x+ *)

Definition item : Type := cls * quant.
Definition regex := list item.

Section Re.
Context {R : Runtime}.

Fixpoint cls_match (k : cls) (c : N) : bool :=
  match k with
  | Digit => isdecimal c
  | Space => isspace c
  | Chr x => (x =? c)%N
  | Either a b => cls_match a c || cls_match b c
  end.

(** Length of the longest prefix of [s] made of characters of [k]. *)
Fixpoint run (k : cls) (s : pystr) : nat :=
  match s with
  | c :: t => if cls_match k c then S (run k t) else 0
  | [] => 0
  end.

(** Fewest and most repetitions an item may take where [n] characters of
    its class are available. *)
Definition bounds (q : quant) (n : nat) : nat * nat :=
  match q with
  | One => (1, min 1 n)
  | Opt => (0, min 1 n)
  | Star => (0, n)
  | Plus => (1, n)
  end.

(** Greedy choice with backtracking: try [lo + d] repetitions, then one
    fewer, down to [lo], and keep the first for which the rest matches. *)
Fixpoint backtrack (rest : pystr -> option (list pystr)) (s : pystr)
    (lo d : nat) : option (list pystr) :=
  match rest (drop (lo + d) s) with
  | Some ms => Some (take (lo + d) s :: ms)
  | None =>
    match d with
    | O => None
    | S d' => backtrack rest s lo d'
    end
  end.

(** [match_here r s]: the pattern matched at the start of [s]; the result
    lists the text taken by each item. *)
Fixpoint match_here (r : regex) (s : pystr) : option (list pystr) :=
  match r with
  | [] => Some []
  | (k, q) :: r' =>
    let '(lo, hi) := bounds q (run k s) in
    if hi <? lo then None else backtrack (match_here r') s lo (hi - lo)
  end.

(** [re.search]: the first position, from the left, where the pattern
    matches; [i] is the position of [s] in the searched text. *)
Fixpoint search_from (r : regex) (s : pystr) (i : nat)
    : option (nat * list pystr) :=
  match match_here r s with
  | Some ms => Some (i, ms)
  | None =>
    match s with
    | [] => None
    | _ :: t => search_from r t (S i)
    end
  end.

Definition re_search (r : regex) (s : pystr) : option (nat * list pystr) :=
  search_from r s 0.

(** The text of the group made of the [n] items that follow the first [i]. *)
Definition group (i n : nat) (m : nat * list pystr) : pystr :=
  concat (take n (drop i (snd m))).

End Re.

(** A literal word as a pattern. *)
Definition word (w : pystr) : regex := map (fun c => (Chr c, One)) w.

End Py.
Export Py.

(** ** pandas frames of product rows *)

Module Frame.

(** A row of the frame once the columns are typed: [title], [size],
    [gender] and [timestamp] hold text or [None], [price] a float,
    [rating] a float or [None], [colors] an integer or [None]. *)
Record Row := {
  title : option pystr;
  price : float;
  rating : option float;
  colors : option Z;
  size : option pystr;
  gender : option pystr;
  timestamp : option pystr
}.

(** A frame: its rows in order, each with its index label. *)
Abbreviation DataFrame := (list (nat * Row)).

(** [RangeIndex]: the labels 0, 1, 2, ... *)
Definition range_index (rows : list Row) : DataFrame :=
  zip (seq 0 (length rows)) rows.

(** [df.reset_index(drop=True)] *)
Definition reset_index (df : DataFrame) : DataFrame := range_index (map snd df).

(** [pd.concat([a, b], ignore_index=True)] *)
Definition concat_ignore_index (a b : DataFrame) : DataFrame :=
  range_index (map snd a ++ map snd b).

(** Missing values, as [dropna] sees them: [None] and NaN. *)
Definition notna_float (x : float) : bool := negb (isnan x).
Definition notna_opt_float (x : option float) : bool :=
  match x with
  | Some v => notna_float v
  | None => false
  end.
Definition notna {A} (x : option A) : bool :=
  match x with
  | Some _ => true
  | None => false
  end.

(** [df.dropna(subset=['title','price','rating','colors','size','gender'])] *)
Definition complete (r : Row) : bool :=
  notna (title r) && notna_float (price r) && notna_opt_float (rating r)
  && notna (colors r) && notna (size r) && notna (gender r).

Definition dropna (df : DataFrame) : DataFrame :=
  List.filter (fun x => complete (snd x)) df.

(** The key of [drop_duplicates(subset=['title','price','size','gender'])].
    pandas compares key values by [==], and lets NaN match NaN. *)
Definition Key : Type := option pystr * float * option pystr * option pystr.

Definition key (r : Row) : Key := (title r, price r, size r, gender r).

Definition float_same (x y : float) : bool :=
  match x, y with
  | S754_nan, S754_nan => true
  | _, _ => SFeqb x y
  end.

Definition key_eqb (a b : Key) : bool :=
  let '(t1, p1, s1, g1) := a in
  let '(t2, p2, s2, g2) := b in
  bool_decide (t1 = t2) && float_same p1 p2 && bool_decide (s1 = s2)
  && bool_decide (g1 = g2).

Inductive keep := first | last.

(** [duplicated]: a key is flagged when an earlier key equals it; [seen]
    holds the keys met so far. *)
Fixpoint duplicated_from (seen : list Key) (ks : list Key) : list bool :=
  match ks with
  | [] => []
  | k :: t => existsb (key_eqb k) seen :: duplicated_from (k :: seen) t
  end.

(** [keep='last'] flags in the reverse order. *)
Definition duplicated (k : keep) (ks : list Key) : list bool :=
  match k with
  | first => duplicated_from [] ks
  | last => rev (duplicated_from [] (rev ks))
  end.

(** [df.drop_duplicates(subset=..., keep=k)]: the rows that are not
    flagged, with their labels. *)
Definition drop_duplicates (k : keep) (df : DataFrame) : DataFrame :=
  map fst
    (List.filter (fun x => negb (snd x))
       (zip df (duplicated k (map (fun x => key (snd x)) df)))).

End Frame.
Export Frame.

(** ** [utils/transform.py] *)

Module Transform.

(** Exchange rate USD to IDR *)
Definition USD_TO_IDR_RATE : Z := 16000.

(** The pattern [[\d,]+ \.? \d*]. *)
Definition price_re : regex :=
  [(Either Digit (Chr 44), Plus); (Chr 46, Opt); (Digit, Star)].

(** The pattern [( \d+ \.? \d* ) \s* / \s* ( \d+ )]; group 1 is made of the
    first three items. *)
Definition rating_re : regex :=
  [(Digit, Plus); (Chr 46, Opt); (Digit, Star); (Space, Star); (Chr 47, One);
   (Space, Star); (Digit, Plus)].

Definition size_mapping : gmap pystr pystr :=
  list_to_map
    [(py "XS", py "XS"); (py "S", py "S"); (py "M", py "M"); (py "L", py "L");
     (py "XL", py "XL"); (py "XXL", py "XXL")].

Definition gender_mapping : gmap pystr pystr :=
  list_to_map
    [(py "MEN", py "Men"); (py "WOMEN", py "Women"); (py "UNISEX", py "Unisex")].

Definition invalid_titles : list pystr := [py "unknown product"; py "unknown"; []].

Section Cleaners.
Context {R : Runtime}.

Definition clean_price (price_str : option pystr) : result float :=
  if falsy price_str || bool_decide (price_str = Some (py "Price Unavailable"))
  then Ok fzero
  else
    match re_search price_re (replace (py ",") [] (default [] price_str)) with
    | Some price_match =>
      usd_price ← python_float (group 0 3 price_match);
      Ok (fmul usd_price (float_of_Z USD_TO_IDR_RATE))
    | None => Ok fzero
    end.

Definition clean_rating (rating_str : option pystr) : result (option float) :=
  if falsy rating_str || bool_decide (rating_str = Some (py "Not Rated"))
  then Ok None
  else if contains (py "Invalid Rating") (default [] rating_str) then Ok None
  else
    match re_search rating_re (default [] rating_str) with
    | Some rating_match => Some <$> python_float (group 0 3 rating_match)
    | None => Ok None
    end.

(** [except (ValueError, TypeError)] turns a refused numeral into [None]. *)
Definition clean_colors (colors_str : option pystr) : result (option Z) :=
  if falsy colors_str then Ok None
  else
    match python_int (default [] colors_str) with
    | Ok n => Ok (Some n)
    | Raise ValueError => Ok None
    | Raise e => Raise e
    end.

Definition standardize_size (size_str : option pystr) : option pystr :=
  if falsy size_str || bool_decide (size_str = Some (py "Unknown")) then None
  else
    let clean_size := strip (upper (default [] size_str)) in
    size_mapping !! clean_size.

Definition standardize_gender (gender_str : option pystr) : option pystr :=
  if falsy gender_str || bool_decide (gender_str = Some (py "Unknown")) then None
  else
    let clean_gender := strip (upper (default [] gender_str)) in
    gender_mapping !! clean_gender.

Definition is_valid_title (title : option pystr) : bool :=
  if falsy title then false
  else negb (bool_decide (strip (lower (default [] title)) ∈ invalid_titles)).

End Cleaners.

(** A raw record: the seven keys of a product, each holding text (or
    [None], which the cleaners also accept). *)
Record RawRecord := {
  raw_title : option pystr;
  raw_price : option pystr;
  raw_rating : option pystr;
  raw_colors : option pystr;
  raw_size : option pystr;
  raw_gender : option pystr;
  raw_timestamp : option pystr
}.

(** The rows of the frame once the five columns have been replaced by
    their cleaned values. *)
Fixpoint assign (raw : list RawRecord) (prices : list float)
    (ratings : list (option float)) (colours : list (option Z))
    (sizes genders : list (option pystr)) : list Row :=
  match raw, prices, ratings, colours, sizes, genders with
  | r :: raw', p :: ps, ra :: ras, c :: cs, s :: ss, g :: gs =>
    {| title := raw_title r; price := p; rating := ra; colors := c;
       size := s; gender := g; timestamp := raw_timestamp r |}
    :: assign raw' ps ras cs ss gs
  | _, _, _, _, _, _ => []
  end.

Section Pipeline.
Context {R : Runtime}.

Definition transform_fashion_data (raw_data : list RawRecord)
    : result DataFrame :=
  match raw_data with
  | [] => Ok []
  | _ :: _ =>
    (* Clean and transform each field *)
    prices ← mapM (fun r => clean_price (raw_price r)) raw_data;
    ratings ← mapM (fun r => clean_rating (raw_rating r)) raw_data;
    colours ← mapM (fun r => clean_colors (raw_colors r)) raw_data;
    let sizes := map (fun r => standardize_size (raw_size r)) raw_data in
    let genders := map (fun r => standardize_gender (raw_gender r)) raw_data in
    let df := range_index (assign raw_data prices ratings colours sizes genders) in
    (* Remove rows with invalid titles *)
    let df := List.filter (fun x => is_valid_title (title (snd x))) df in
    (* Remove rows with null/invalid values in critical fields *)
    let df := dropna df in
    (* Remove rows where price is 0 *)
    let df := List.filter (fun x => fgt (price (snd x)) fzero) df in
    (* Remove duplicates based on title, price, size, and gender *)
    let df := drop_duplicates first df in
    Ok (reset_index df)
  end.

End Pipeline.

End Transform.

(** ** [utils/extract.py] *)

Module Extract.

(** What BeautifulSoup finds in one [div.collection-card]: the text of the
    [h3.product-title] element and of the [span.price] element, when there
    is one, and the texts of the [p] elements whose style holds
    [font-size: 14px], in document order. *)
Record Card := {
  title_element : option pystr;
  price_element : option pystr;
  detail_paragraphs : list pystr
}.

(** A product is a dictionary from field names to text. *)
Abbreviation Product := (gmap string pystr).

(** The pattern [( \d+ ) \s+ Colors]; group 1 is its first item. *)
Definition colors_re : regex :=
  [(Digit, Plus); (Space, Plus)] ++ word (py "Colors").

Section Parser.
Context {R : Runtime}.

(** One turn of the loop over the detail paragraphs. *)
Definition scan_paragraph (product : Product) (p : pystr) : Product :=
  let text := strip p in
  if startswith (py "Rating:") text then
    <["rating" := strip (replace (py "Rating: ") [] text)]> product
  else if contains (py "Colors") text then
    let colors_match := re_search colors_re text in
    <["colors" := match colors_match with
                  | Some m => group 0 1 m
                  | None => py "0"
                  end]> product
  else if startswith (py "Size:") text then
    <["size" := strip (replace (py "Size: ") [] text)]> product
  else if startswith (py "Gender:") text then
    <["gender" := strip (replace (py "Gender: ") [] text)]> product
  else product.

(** The body of the loop over the cards. *)
Definition parse_card (timestamp : pystr) (card : Card) : Product :=
  let product : Product := ∅ in
  let product :=
    <["title" := match title_element card with
                 | Some t => strip t
                 | None => py "Unknown"
                 end]> product in
  let product :=
    <["price" := match price_element card with
                 | Some t => strip t
                 | None => py "Price Unavailable"
                 end]> product in
  let product := <["rating" := py "Not Rated"]> product in
  let product := <["colors" := py "0"]> product in
  let product := <["size" := py "Unknown"]> product in
  let product := <["gender" := py "Unknown"]> product in
  let product := fold_left scan_paragraph (detail_paragraphs card) product in
  <["timestamp" := timestamp]> product.

(** [soup.find_all('div', class_='collection-card')] for the page. *)
Variable find_cards : pystr -> list Card.

Definition parse_product_data (html_content timestamp : pystr)
    : list Product :=
  match html_content with
  | [] => []
  | _ :: _ => map (parse_card timestamp) (find_cards html_content)
  end.

(** [fetch_webpage]: the text of the page, or [None]. *)
Variable fetch_webpage : pystr -> option pystr.

(** The state of the loop: the addresses requested so far, oldest first,
    and the products collected. *)
Record Run := {
  requested : list pystr;
  all_products : list Product
}.

Definition page_url (base_url : pystr) (page : nat) : pystr :=
  if page =? 1 then base_url
  else base_url ++ py "?page=" ++ py (pretty page).

(** The loop [for page in range(page, page + todo)]: [continue] goes on
    with the next page, [break] returns the state. *)
Fixpoint scrape (base_url timestamp : pystr) (page todo : nat) (st : Run)
    : Run :=
  match todo with
  | O => st
  | S todo' =>
    let url := page_url base_url page in
    let st := {| requested := requested st ++ [url];
                 all_products := all_products st |} in
    match fetch_webpage url with
    | None | Some [] => scrape base_url timestamp (S page) todo' st
    | Some html_content =>
      match parse_product_data html_content timestamp with
      | [] => st
      | page_products =>
        scrape base_url timestamp (S page) todo'
          {| requested := requested st;
             all_products := all_products st ++ page_products |}
      end
    end
  end.

(** [extraction_timestamp] is the clock reading taken before the loop. The
    closing report reads the loop variable [page], which is unbound when the
    loop had no turn. The result comes with the addresses requested. *)
Definition extract_fashion_data (extraction_timestamp base_url : pystr)
    (max_pages : Z) : list pystr * result (list Product) :=
  let st :=
    scrape base_url extraction_timestamp 1 (Z.to_nat max_pages)
      {| requested := []; all_products := [] |} in
  (requested st,
   if (max_pages <? 1)%Z then Raise UnboundLocalError
   else Ok (all_products st)).

End Parser.

End Extract.

(** ** [utils/load.py] *)

Module Load.

(** The files: the rows that each path holds. The text of a file is not
    modelled; reading a file gives the rows written to it, and no write
    fails. *)
Abbreviation Files := (gmap string (list Row)).

Definition read_csv (rows : list Row) : DataFrame := range_index rows.

(** The required columns are those of [Row]; what is left to check is
    that the frame has rows. *)
Definition validate_dataframe (df : DataFrame) : bool :=
  negb (bool_decide (df = [])).

(** [now] is the clock reading used in the name of the copy. *)
Definition create_backup (now file_path : string) (fs : Files) : Files :=
  match fs !! file_path with
  | None => fs
  | Some rows => <[(file_path +:+ ".backup_" +:+ now)%string := rows]> fs
  end.

Definition save_to_csv (now : string) (df : DataFrame) (file_path : string)
    (create_backup_flag : bool) (fs : Files) : bool * Files :=
  if negb (validate_dataframe df) then (false, fs)
  else
    let fs := if create_backup_flag then create_backup now file_path fs else fs in
    (true, <[file_path := map snd df]> fs).

Definition append_to_csv (now : string) (df : DataFrame) (file_path : string)
    (fs : Files) : bool * Files :=
  if negb (validate_dataframe df) then (false, fs)
  else
    match fs !! file_path with
    | Some rows =>
      let existing_df := read_csv rows in
      let combined_df := concat_ignore_index existing_df df in
      let combined_df := drop_duplicates last combined_df in
      (true, <[file_path := map snd combined_df]> fs)
    | None => save_to_csv now df file_path false fs
    end.

Definition load_fashion_data (now : string) (df : DataFrame)
    (output_path mode : string) (fs : Files) : bool * Files :=
  if bool_decide (mode = "append") then append_to_csv now df output_path fs
  else save_to_csv now df output_path true fs.

End Load.

(** ** [main.py] *)

Module Main.

Import Transform Extract Load.

(** The row of [pd.DataFrame(raw_data)] for a product: the values under the
    seven keys. Every product of the parser has the seven keys, so no cell
    of the frame is missing. *)
Definition raw_record (product : Product) : RawRecord := {|
  raw_title := product !! "title";
  raw_price := product !! "price";
  raw_rating := product !! "rating";
  raw_colors := product !! "colors";
  raw_size := product !! "size";
  raw_gender := product !! "gender";
  raw_timestamp := product !! "timestamp"
|}.

Section Pipeline.
Context {R : Runtime}.
Variable find_cards : pystr -> list Card.
Variable fetch_webpage : pystr -> option pystr.

(** [clock] is the reading taken by the extraction, [now] the one taken by
    the sink. [except Exception] turns a raise into [False]. *)
Definition run_etl_pipeline (clock : pystr) (now : string) (url : pystr)
    (output_file mode : string) (max_pages : Z) (fs : Files) : bool * Files :=
  match snd (extract_fashion_data find_cards fetch_webpage clock url max_pages) with
  | Raise _ => (false, fs)
  | Ok [] => (false, fs)
  | Ok raw_data =>
    match transform_fashion_data (map raw_record raw_data) with
    | Raise _ => (false, fs)
    | Ok [] => (false, fs)
    | Ok transformed_df =>
      load_fashion_data now transformed_df output_file mode fs
    end
  end.

End Pipeline.

End Main.

(** * Vocabulary of the statements *)

Import Transform Extract Load Main.

(** ** Patterns

    What a pattern denotes: a match is a split of the text taken into one
    piece per item. *)

Definition reps_ok (q : quant) (n : nat) : Prop :=
  match q with
  | One => n = 1
  | Opt => n <= 1
  | Star => True
  | Plus => 1 <= n
  end.

Section Patterns.
Context {R : Runtime}.

Definition item_ok (it : item) (m : pystr) : Prop :=
  Forall (fun c => cls_match (fst it) c = true) m /\ reps_ok (snd it) (length m).

Definition matches (r : regex) (ms : list pystr) : Prop := Forall2 item_ok r ms.

(** The pattern matches somewhere in the text, [i] characters in. *)
Definition occurs_at (r : regex) (s : pystr) (i : nat) (ms : list pystr) : Prop :=
  matches r ms /\ exists pre post, s = pre ++ concat ms ++ post /\ length pre = i.

(** The first numeric token of a text, read off directly: the first run of
    digits, with the full stop that follows it and the digits after that
    full stop, when there are any. *)
Fixpoint digits_prefix (s : pystr) : pystr :=
  match s with
  | c :: t => if isdecimal c then c :: digits_prefix t else []
  | [] => []
  end.

Definition fraction_part (rest : pystr) : pystr :=
  match rest with
  | 46%N :: r => 46%N :: digits_prefix r
  | _ => []
  end.

Fixpoint first_numeric_token (s : pystr) : option pystr :=
  match s with
  | [] => None
  | c :: t =>
    if isdecimal c then
      let int_part := digits_prefix s in
      Some (int_part ++ fraction_part (drop (length int_part) s))
    else first_numeric_token t
  end.

(** The text without its thousands separators. *)
Definition without_commas (s : pystr) : pystr :=
  List.filter (fun c => negb (c =? 44)%N) s.

End Patterns.

(** ** Floats that are not negative *)

(** Zero, a positive number or plus infinity: not NaN, sign bit clear. *)
Definition nonneg_float (x : float) : Prop :=
  match x with
  | S754_nan => False
  | S754_zero s | S754_infinity s | S754_finite s _ _ => s = false
  end.

(** ** Duplicates *)

Section Dedup.
Context {A : Type} (kf : A -> Key).

(** The elements of [l] that are not flagged, [seen] being the keys met
    before [l]. *)
Definition dedup_from (seen : list Key) (l : list A) : list A :=
  map fst
    (List.filter (fun x => negb (snd x))
       (zip l (duplicated_from seen (map kf l)))).

(** The first, and the last, element of [l] with the key [k]. *)
Definition first_with (k : Key) (l : list A) : option A :=
  List.find (fun x => key_eqb k (kf x)) l.

Definition last_with (k : Key) (l : list A) : option A := first_with k (rev l).

(** No two elements of [l] have the same key. *)
Fixpoint distinct_keys (l : list A) : Prop :=
  match l with
  | [] => True
  | x :: t => Forall (fun y => key_eqb (kf x) (kf y) = false) t /\ distinct_keys t
  end.

End Dedup.

(** ** The validator, step by step *)

Section Steps.
Context {R : Runtime}.

Definition value {A} (d : A) (r : result A) : A :=
  match r with
  | Ok a => a
  | Raise _ => d
  end.

(** Step 1: the five cleaners applied to the fields of a record. *)
Definition typed (r : RawRecord) : Row := {|
  title := raw_title r;
  price := value fzero (clean_price (raw_price r));
  rating := value None (clean_rating (raw_rating r));
  colors := value None (clean_colors (raw_colors r));
  size := standardize_size (raw_size r);
  gender := standardize_gender (raw_gender r);
  timestamp := raw_timestamp r
|}.

(** A record and its typed row, field by field. *)
Definition normalised (r : RawRecord) (row : Row) : Prop :=
  title row = raw_title r
  /\ clean_price (raw_price r) = Ok (price row)
  /\ clean_rating (raw_rating r) = Ok (rating row)
  /\ clean_colors (raw_colors r) = Ok (colors row)
  /\ size row = standardize_size (raw_size r)
  /\ gender row = standardize_gender (raw_gender r)
  /\ timestamp row = raw_timestamp r.

(** Steps 2 to 4 as one test on a row. *)
Definition admissible (row : Row) : bool :=
  is_valid_title (title row) && (complete row && fgt (price row) fzero).

(** Steps 2 to 6 on the frame of the typed rows. *)
Definition validator_steps (rows : list Row) : DataFrame :=
  let df := range_index rows in
  let df := List.filter (fun x => is_valid_title (title (snd x))) df in
  let df := dropna df in
  let df := List.filter (fun x => fgt (price (snd x)) fzero) df in
  let df := drop_duplicates first df in
  reset_index df.

End Steps.

(** A record that holds the parser's sentinel in every field but the
    title. *)
Definition sentinel_defaults (r : RawRecord) : Prop :=
  raw_price r = Some (py "Price Unavailable")
  /\ raw_rating r = Some (py "Not Rated")
  /\ raw_colors r = Some (py "0")
  /\ raw_size r = Some (py "Unknown")
  /\ raw_gender r = Some (py "Unknown").

(** The record that the parser makes of a card with a title and nothing
    else. *)
Definition bare (name stamp : string) : RawRecord := {|
  raw_title := Some (py name);
  raw_price := Some (py "Price Unavailable");
  raw_rating := Some (py "Not Rated");
  raw_colors := Some (py "0");
  raw_size := Some (py "Unknown");
  raw_gender := Some (py "Unknown");
  raw_timestamp := Some (py stamp)
|}.

(** The record of the end-to-end examples, with the time stamp left open. *)
Definition tshirt (stamp : string) : RawRecord := {|
  raw_title := Some (py "T-shirt 1");
  raw_price := Some (py "$25.99");
  raw_rating := Some (py "⭐ 4.5 / 5");
  raw_colors := Some (py "3");
  raw_size := Some (py "M");
  raw_gender := Some (py "Men");
  raw_timestamp := Some (py stamp)
|}.

Definition tshirt_row (stamp : string) : Row := {|
  title := Some (py "T-shirt 1");
  price := fmul (float_of_ratio 2599 100) (float_of_Z USD_TO_IDR_RATE);
  rating := Some (float_of_ratio 45 10);
  colors := Some 3%Z;
  size := Some (py "M");
  gender := Some (py "Men");
  timestamp := Some (py stamp)
|}.

(** ** Cards and pages *)

(** The six keys that the scan of a card sets, and the seven keys of a
    product. *)
Definition six_keys : gset string :=
  {["title"; "price"; "rating"; "colors"; "size"; "gender"]}.

Definition product_keys : gset string :=
  {["title"; "price"; "rating"; "colors"; "size"; "gender"; "timestamp"]}.

Definition with_paragraphs (card : Card) (ps : list pystr) : Card := {|
  title_element := title_element card;
  price_element := price_element card;
  detail_paragraphs := ps
|}.

Section Pages.
Context {R : Runtime}.

(** The four patterns of a descriptor line as the specification words
    them: the prefixes "Rating: ", "Size: " and "Gender: ", and an integer
    followed by blanks and "Colors" somewhere in the line. *)
Definition stated_pattern (text : pystr) : Prop :=
  startswith (py "Rating: ") text = true
  \/ (exists i ms, occurs_at colors_re text i ms)
  \/ startswith (py "Size: ") text = true
  \/ startswith (py "Gender: ") text = true.

(** The four tests that the parser makes on a trimmed line. *)
Definition tested (text : pystr) : bool :=
  startswith (py "Rating:") text || contains (py "Colors") text
  || startswith (py "Size:") text || startswith (py "Gender:") text.

(** The dictionary before the scan of the detail paragraphs. *)
Definition defaults (card : Card) : Product :=
  <["gender" := py "Unknown"]>
    (<["size" := py "Unknown"]>
       (<["colors" := py "0"]>
          (<["rating" := py "Not Rated"]>
             (<["price" := match price_element card with
                           | Some t => strip t
                           | None => py "Price Unavailable"
                           end]>
                (<["title" := match title_element card with
                               | Some t => strip t
                               | None => py "Unknown"
                               end]> ∅))))).

Variable find_cards : pystr -> list Card.
Variable fetch_webpage : pystr -> option pystr.

(** What page [p] yields: [None] when the fetch gives no content ([None]
    or an empty text), else the records parsed from the page. *)
Definition page_outcome (base_url timestamp : pystr) (p : nat)
    : option (list Product) :=
  match fetch_webpage (page_url base_url p) with
  | None | Some [] => None
  | Some html_content => Some (parse_product_data find_cards html_content timestamp)
  end.

Definition page_records (base_url timestamp : pystr) (p : nat) : list Product :=
  default [] (page_outcome base_url timestamp p).

End Pages.

(** A site of three pages for the examples: the first two pages hold one
    card each, the third holds none, and the fourth cannot be fetched. *)
Definition demo_base : pystr := py "https://shop.example/".

Definition demo_fetch (url : pystr) : option pystr :=
  if bool_decide (url = py "https://shop.example/?page=4") then None
  else Some url.

Definition demo_card (name : string) : Card := {|
  title_element := Some (py name);
  price_element := Some (py "$25.99");
  detail_paragraphs := [py "Rating: 4.5 / 5"; py "3 Colors"; py "Size: M";
                        py "Gender: Men"]
|}.

Definition demo_cards (html_content : pystr) : list Card :=
  if bool_decide (html_content = py "https://shop.example/") then
    [demo_card "T-shirt 1"]
  else if bool_decide (html_content = py "https://shop.example/?page=2") then
    [demo_card "Hoodie 2"]
  else [].

(** ** Canonical values *)

Definition canonical_sizes : list pystr :=
  [py "XS"; py "S"; py "M"; py "L"; py "XL"; py "XXL"].

Definition canonical_genders : list pystr := [py "Men"; py "Women"; py "Unisex"].

(** A text made of blanks only. *)
Definition blank {R : Runtime} (s : pystr) : Prop :=
  Forall (fun c => isspace c = true) s.

(** A card that the parser fills with a sentinel: it has no price element,
    or none of its detail lines starts with "Rating:", or none with "Size:",
    or none with "Gender:". *)
Definition incomplete {R : Runtime} (card : Card) : Prop :=
  price_element card = None
  \/ Forall (fun p => startswith (py "Rating:") (strip p) = false)
       (detail_paragraphs card)
  \/ Forall (fun p => startswith (py "Size:") (strip p) = false)
       (detail_paragraphs card)
  \/ Forall (fun p => startswith (py "Gender:") (strip p) = false)
       (detail_paragraphs card).

(** ** Files *)

(** The name under which [create_backup] copies a file. *)
Definition backup_path (now file_path : string) : string :=
  (file_path +:+ ".backup_" +:+ now)%string.

(** * Properties *)

#[local] Arguments N.eqb : simpl never.

(** ** Text helpers *)

Section StrFacts.
Context {R : Runtime}.



Lemma lstrip_id (s : pystr) :
  Forall (fun c => isspace c = false) s -> lstrip s = s.
Proof. destruct 1 as [|c s Hc _]; simpl; [easy | now rewrite Hc]. Qed.

Lemma strip_id (s : pystr) :
  Forall (fun c => isspace c = false) s -> strip s = s.
Proof.
  intros H. unfold strip, rstrip. rewrite (lstrip_id s H).
  rewrite lstrip_id; [apply rev_involutive|].
  apply List.Forall_forall. intros c Hc. apply in_rev in Hc.
  now apply (proj1 (List.Forall_forall _ _) H).
Qed.


Lemma int_digits_decimals (s : pystr) (ds : list N) (prev : bool) :
  decimals s = Some ds -> s <> [] -> int_digits prev s = Some ds.
Proof.
  revert ds prev. induction s as [|a s IH]; simpl; [easy|].
  intros ds prev H _.
  destruct (decimal a) as [d|]; [|easy].
  destruct (decimals s) as [ds'|] eqn:E; [|easy].
  injection H as <-.
  destruct s as [|b s].
  - simpl in E. injection E as <-. now simpl.
  - now rewrite (IH ds' true).
Qed.

Lemma decimals_length (s : pystr) (ds : list N) :
  decimals s = Some ds -> length ds = length s.
Proof.
  revert ds. induction s as [|a s IH]; simpl.
  - now intros ds [= <-].
  - intros ds H. destruct (decimal a); [|easy].
    destruct (decimals s) as [ds'|]; [|easy].
    injection H as <-. simpl. now rewrite (IH ds').
Qed.

End StrFacts.

(** ** The colours cleaner *)

Section Colors.
Context {R : Runtime}.

Lemma python_int_exn (s : pystr) (e : exn) :
  python_int s = Raise e -> e = ValueError.
Proof.
  unfold python_int.
  destruct (match strip s with
            | 43%N :: r => (false, r)
            | 45%N :: r => (true, r)
            | _ => (false, strip s)
            end) as [neg body].
  destruct (int_digits false body); [|now intros [= <-]].
  destruct (_ && _); [now intros [= <-] | easy].
Qed.

Lemma clean_colors_total (x : option pystr) :
  clean_colors x =
  Ok (if falsy x then None
      else match python_int (default [] x) with
           | Ok n => Some n
           | Raise _ => None
           end).
Proof.
  unfold clean_colors. destruct (falsy x); [easy|].
  destruct (python_int (default [] x)) as [n|e] eqn:E; [easy|].
  now rewrite (python_int_exn _ _ E).
Qed.



End Colors.

(** ** The pattern matcher *)


Section ReFacts.
Context {R : Runtime}.


Lemma run_le_length (k : cls) (s : pystr) : run k s <= length s.
Proof.
  induction s as [|c s IH]; simpl; [lia|].
  destruct (cls_match k c); simpl; lia.
Qed.

Lemma run_take (k : cls) (s : pystr) (n : nat) :
  n <= run k s -> Forall (fun c => cls_match k c = true) (take n s).
Proof.
  revert n. induction s as [|c s IH]; intros [|n]; simpl; try constructor.
  - destruct (cls_match k c) eqn:E; [easy | lia].
  - apply IH. destruct (cls_match k c); lia.
Qed.

Lemma run_app_ge (k : cls) (m s : pystr) :
  Forall (fun c => cls_match k c = true) m -> length m <= run k (m ++ s).
Proof.
  induction 1 as [|c m Hc _ IH]; simpl; [lia|].
  rewrite Hc. lia.
Qed.

Lemma bounds_reps (q : quant) (avail lo hi n : nat) :
  bounds q avail = (lo, hi) -> lo <= n <= hi -> reps_ok q n /\ n <= avail.
Proof. destruct q, avail; unfold bounds, reps_ok; intros [= <- <-]; lia. Qed.

Lemma reps_bounds (q : quant) (avail lo hi n : nat) :
  bounds q avail = (lo, hi) -> reps_ok q n -> n <= avail -> lo <= n <= hi.
Proof. destruct q, avail; unfold bounds, reps_ok; intros [= <- <-]; lia. Qed.

Lemma backtrack_Some rest s lo d ms :
  backtrack rest s lo d = Some ms ->
  exists n ms', lo <= n <= lo + d /\ rest (drop n s) = Some ms'
                /\ ms = take n s :: ms'
                /\ forall n', n < n' <= lo + d -> rest (drop n' s) = None.
Proof.
  revert ms. induction d as [|d IH]; simpl; intros ms.
  - destruct (rest (drop (lo + 0) s)) as [ms'|] eqn:E; [|easy].
    intros [= <-]. exists (lo + 0), ms'. repeat split; try easy; try lia.
  - destruct (rest (drop (lo + S d) s)) as [ms'|] eqn:E.
    + intros [= <-]. exists (lo + S d), ms'. repeat split; try easy; try lia.
    + intros H. destruct (IH _ H) as (n & ms' & Hn & Hr & -> & Hmax).
      exists n, ms'. repeat split; try easy; try lia.
      intros n' Hn'. destruct (decide (n' = lo + S d)) as [->|]; [easy|].
      apply Hmax. lia.
Qed.

Lemma backtrack_None rest s lo d n :
  backtrack rest s lo d = None -> lo <= n <= lo + d -> rest (drop n s) = None.
Proof.
  induction d as [|d IH]; simpl.
  - destruct (rest (drop (lo + 0) s)) eqn:E; [easy|].
    intros _ Hn. now replace n with (lo + 0) by lia.
  - destruct (rest (drop (lo + S d) s)) eqn:E; [easy|].
    intros H Hn. destruct (decide (n = lo + S d)) as [->|]; [easy|].
    apply IH; [easy | lia].
Qed.

Lemma match_here_sound (r : regex) (s : pystr) (ms : list pystr) :
  match_here r s = Some ms ->
  matches r ms /\ exists post, s = concat ms ++ post.
Proof.
  revert s ms. induction r as [|[k q] r IH]; simpl; intros s ms.
  - intros [= <-]. split; [constructor | now exists s].
  - destruct (bounds q (run k s)) as [lo hi] eqn:Eb.
    destruct (hi <? lo) eqn:El; [easy|].
    apply Nat.ltb_ge in El. intros H.
    destruct (backtrack_Some _ _ _ _ _ H) as (n & ms' & Hn & Hr & -> & _).
    destruct (IH _ _ Hr) as [Hm [post Hpost]].
    destruct (bounds_reps q (run k s) lo hi n Eb) as [Hq Hrun]; [lia|].
    pose proof (run_le_length k s) as Hlen.
    split.
    + constructor; [|easy]. split; simpl.
      * now apply run_take.
      * rewrite length_take. now replace (n `min` length s) with n by lia.
    + exists post. simpl. rewrite <- app_assoc, <- Hpost. now rewrite take_drop.
Qed.

Lemma match_here_complete (r : regex) (ms : list pystr) (post : pystr) :
  matches r ms -> is_Some (match_here r (concat ms ++ post)).
Proof.
  intros H. induction H as [|[k q] m r ms [Hm Hq] _ IH]; simpl; [easy|].
  simpl in Hm, Hq. rewrite <- app_assoc.
  set (s := m ++ concat ms ++ post).
  destruct (bounds q (run k s)) as [lo hi] eqn:Eb.
  pose proof (run_app_ge k m (concat ms ++ post) Hm) as Hrun. fold s in Hrun.
  destruct (reps_bounds q (run k s) lo hi (length m) Eb Hq Hrun) as [Hlo Hhi].
  replace (hi <? lo) with false by (symmetry; apply Nat.ltb_ge; lia).
  destruct (backtrack (match_here r) s lo (hi - lo)) eqn:E; [easy|].
  pose proof (backtrack_None _ _ _ _ (length m) E) as Hn.
  unfold s in Hn. rewrite drop_app_length in Hn.
  rewrite Hn in IH; [now destruct IH | lia].
Qed.

Lemma search_from_Some (r : regex) (s : pystr) (i j : nat) (ms : list pystr) :
  search_from r s i = Some (j, ms) ->
  exists pre post, s = pre ++ post /\ j = i + length pre
    /\ match_here r post = Some ms
    /\ forall n, n < length pre -> match_here r (drop n s) = None.
Proof.
  revert i. induction s as [|c s IH]; simpl; intros i.
  - destruct (match_here r []) as [ms'|] eqn:E; [|easy].
    intros [= <- <-]. exists [], []. simpl. repeat split; [lia | easy | lia].
  - destruct (match_here r (c :: s)) as [ms'|] eqn:E.
    + intros [= <- <-]. exists [], (c :: s). simpl. repeat split; [lia | easy | lia].
    + intros H. destruct (IH _ H) as (pre & post & -> & -> & Hm & Hmin).
      exists (c :: pre), post. simpl. repeat split; [lia | easy |].
      intros [|n] Hn; simpl; [easy|]. apply Hmin. lia.
Qed.

Lemma search_from_None (r : regex) (s : pystr) (i n : nat) :
  search_from r s i = None -> match_here r (drop n s) = None.
Proof.
  revert i n. induction s as [|c s IH]; simpl; intros i n.
  - destruct (match_here r []) eqn:E; [easy|]. now rewrite drop_nil.
  - destruct (match_here r (c :: s)) eqn:E; [easy|].
    intros H. destruct n as [|n]; simpl; [easy | now apply (IH (S i))].
Qed.

(** [re.search] returns a match, and the leftmost one. *)
Lemma re_search_Some (r : regex) (s : pystr) (i : nat) (ms : list pystr) :
  re_search r s = Some (i, ms) ->
  occurs_at r s i ms /\ forall j ms', occurs_at r s j ms' -> i <= j.
Proof.
  intros H. destruct (search_from_Some _ _ _ _ _ H) as (pre & post & -> & -> & Hm & Hmin).
  destruct (match_here_sound _ _ _ Hm) as [Hok [post' ->]].
  split.
  - split; [easy|]. now exists pre, post'.
  - intros j ms' [Hok' (pre' & post'' & Heq & <-)].
    destruct (le_lt_dec (length pre) (length pre')) as [|Hlt]; [simpl; lia|].
    specialize (Hmin _ Hlt). rewrite Heq, drop_app_length in Hmin.
    destruct (match_here_complete r ms' post'' Hok') as [x Hx]. congruence.
Qed.

(** [re.search] returns [None] only when the pattern matches nowhere. *)
Lemma re_search_None (r : regex) (s : pystr) :
  re_search r s = None <-> forall i ms, ~ occurs_at r s i ms.
Proof.
  split.
  - intros H i ms [Hok (pre & post & Heq & <-)].
    pose proof (search_from_None r s 0 (length pre) H) as Hn.
    rewrite Heq, drop_app_length in Hn.
    destruct (match_here_complete r ms post Hok) as [x Hx]. congruence.
  - intros H. destruct (re_search r s) as [[i ms]|] eqn:E; [|easy].
    destruct (re_search_Some _ _ _ _ E) as [Hocc _]. now destruct (H i ms).
Qed.

End ReFacts.

(** ** Rounding keeps the sign *)

Lemma iter_pos_inv {A} (P : A -> Prop) (f : A -> A) :
  (forall x, P x -> P (f x)) -> forall n x, P x -> P (SpecFloat.iter_pos f n x).
Proof.
  intros Hf. induction n as [n IH|n IH|]; simpl; intros x Hx; auto.
Qed.

Lemma shr_1_nonneg (mrs : shr_record) :
  (0 <= shr_m mrs)%Z -> (0 <= shr_m (shr_1 mrs))%Z.
Proof.
  destruct mrs as [m r s]. simpl.
  destruct m as [|[p|p|]|p]; simpl; lia.
Qed.

Lemma shr_fexp_nonneg (m e : Z) (l : location) :
  (0 <= m)%Z -> (0 <= shr_m (fst (shr_fexp prec emax m e l)))%Z.
Proof.
  intros Hm. unfold shr_fexp, shr.
  assert (H0 : (0 <= shr_m (shr_record_of_loc m l))%Z)
    by now destruct l as [|[]].
  destruct (_ - e)%Z; simpl; try easy.
  apply (iter_pos_inv (fun x => (0 <= shr_m x)%Z)); [apply shr_1_nonneg | easy].
Qed.

Lemma round_nearest_even_nonneg (m : Z) (l : location) :
  (0 <= m)%Z -> (0 <= round_nearest_even m l)%Z.
Proof.
  intros Hm. destruct l as [|[]]; simpl; try lia.
  destruct (Z.even m); lia.
Qed.

Lemma binary_round_aux_nonneg (m e : Z) (l : location) :
  (0 <= m)%Z -> nonneg_float (binary_round_aux prec emax false m e l).
Proof.
  intros Hm. unfold binary_round_aux.
  pose proof (shr_fexp_nonneg m e l Hm) as H1.
  destruct (shr_fexp prec emax m e l) as [mrs' e']. simpl in H1.
  pose proof (shr_fexp_nonneg _ e' loc_Exact
                (round_nearest_even_nonneg _ (loc_of_shr_record mrs') H1)) as H2.
  destruct (shr_fexp prec emax _ e' loc_Exact) as [mrs'' e'']. simpl in H2.
  destruct (shr_m mrs''); simpl; [easy | | lia].
  now destruct (_ <=? _)%Z.
Qed.

Lemma float_of_ratio_nonneg (n : N) (d : positive) :
  nonneg_float (float_of_ratio n d).
Proof.
  destruct n as [|m]; simpl; [easy|].
  unfold SFdiv_core_binary.
  set (e' := Z.min _ _). set (sft := (0 - 0 - e')%Z).
  set (m' := match sft with
             | Z0 => Z.pos m
             | Z.pos _ => Z.shiftl (Z.pos m) sft
             | Z.neg _ => 0%Z
             end).
  assert (Hm' : (0 <= m')%Z).
  { unfold m'. destruct sft; try lia. now apply Z.shiftl_nonneg. }
  pose proof (Z.div_pos m' (Z.pos d) Hm' ltac:(lia)) as Hq.
  unfold Z.div in Hq. destruct (Z.div_eucl m' (Z.pos d)) as [q r].
  now apply binary_round_aux_nonneg.
Qed.

Lemma fmul_rate_nonneg (x : float) :
  nonneg_float x -> nonneg_float (fmul x (float_of_Z USD_TO_IDR_RATE)).
Proof.
  assert (E : float_of_Z USD_TO_IDR_RATE = S754_finite false 8796093022208000 (-39))
    by now vm_compute.
  rewrite E. destruct x as [s|s| |s m e]; simpl; try easy.
  - now intros ->.
  - now intros ->.
  - intros ->. now apply binary_round_aux_nonneg.
Qed.

Lemma nonneg_float_ge (x : float) :
  nonneg_float x -> isnan x = false /\ fge x fzero = true.
Proof. destruct x as [s|s| |s m e]; simpl; try easy; now intros ->. Qed.

Lemma nonneg_float_not_gt (x : float) :
  nonneg_float x -> fgt x fzero = false -> x = fzero.
Proof. destruct x as [s|s| |s m e]; simpl; try easy; now intros ->. Qed.

(** ** The price cleaner *)

Section Token.
Context {R : Runtime}.


Lemma replace_comma (s : pystr) : replace [44%N] [] s = without_commas s.
Proof.
  unfold replace. induction s as [|c s IH]; simpl; [easy|].
  rewrite andb_true_r, (N.eqb_sym 44 c).
  destruct (c =? 44)%N; simpl; now rewrite IH.
Qed.

Lemma without_commas_clean (s : pystr) :
  Forall (fun c => c <> 44%N) (without_commas s).
Proof.
  apply List.Forall_forall. intros c Hc.
  apply filter_In in Hc. destruct Hc as [_ Hc].
  apply negb_true_iff in Hc. now apply N.eqb_neq.
Qed.

Lemma backtrack_hit rest s lo d ms :
  rest (drop (lo + d) s) = Some ms ->
  backtrack rest s lo d = Some (take (lo + d) s :: ms).
Proof. intros H. destruct d; simpl; now rewrite H. Qed.

Lemma match_star_last (k : cls) (s : pystr) :
  match_here [(k, Star)] s = Some [take (run k s) s].
Proof.
  simpl. rewrite Nat.sub_0_r.
  now rewrite (backtrack_hit _ s 0 (run k s) []).
Qed.

Lemma match_fraction (s : pystr) :
  match_here [(Chr 46, Opt); (Digit, Star)] s =
  let n := 1 `min` run (Chr 46) s in
  Some [take n s; take (run Digit (drop n s)) (drop n s)].
Proof.
  change (match_here [(Chr 46, Opt); (Digit, Star)] s) with
    (backtrack (match_here [(Digit, Star)]) s 0 (1 `min` run (Chr 46) s - 0)).
  rewrite Nat.sub_0_r.
  now rewrite (backtrack_hit _ s 0 _ _ (match_star_last Digit _)).
Qed.

Lemma match_price (s : pystr) :
  match_here price_re s =
  let k := Either Digit (Chr 44) in
  if run k s =? 0 then None
  else
    let s1 := drop (run k s) s in
    let n := 1 `min` run (Chr 46) s1 in
    Some [take (run k s) s; take n s1; take (run Digit (drop n s1)) (drop n s1)].
Proof.
  unfold price_re. cbv zeta. set (k := Either Digit (Chr 44)).
  change (match_here ((k, Plus) :: [(Chr 46, Opt); (Digit, Star)]) s) with
    (if run k s <? 1 then None
     else backtrack (match_here [(Chr 46, Opt); (Digit, Star)]) s 1 (run k s - 1)).
  destruct (run k s) as [|n] eqn:E; [easy|].
  simpl (S n <? 1). simpl (S n =? 0).
  rewrite (backtrack_hit _ s 1 (S n - 1) _ (match_fraction _)).
  now replace (1 + (S n - 1)) with (S n) by lia.
Qed.

Lemma take_run_digits (s : pystr) : take (run Digit s) s = digits_prefix s.
Proof.
  induction s as [|c s IH]; simpl; [easy|].
  destruct (isdecimal c); simpl; now rewrite ?IH.
Qed.

Lemma run_digits_end (s : pystr) : run Digit (drop (run Digit s) s) = 0.
Proof.
  induction s as [|c s IH]; simpl; [easy|].
  destruct (isdecimal c) eqn:E; simpl; [easy | now rewrite E].
Qed.

Lemma run_price_class (s : pystr) :
  Forall (fun c => c <> 44%N) s -> run (Either Digit (Chr 44)) s = run Digit s.
Proof.
  induction 1 as [|c s Hc _ IH]; simpl; [easy|].
  rewrite (proj2 (N.eqb_neq 44 c)) by congruence.
  rewrite orb_false_r. now rewrite IH.
Qed.

Lemma isdecimal_full_stop : isdecimal 46 = false.
Proof.
  unfold isdecimal. rewrite decimal_full_stop.
  apply bool_decide_eq_false. now intros [x Hx].
Qed.

Lemma fraction_matched (s : pystr) :
  run Digit s = 0 ->
  let n := 1 `min` run (Chr 46) s in
  take n s ++ take (run Digit (drop n s)) (drop n s) = fraction_part s.
Proof.
  intros H. destruct s as [|c s]; [easy|].
  simpl. destruct (46 =? c)%N eqn:E.
  - apply N.eqb_eq in E. subst c. simpl. now rewrite take_run_digits.
  - simpl in H. destruct (isdecimal c) eqn:Ed; [easy|]. simpl. rewrite Ed.
    destruct c as [|p]; [easy|].
    do 6 (destruct p as [p|p|]; try easy).
Qed.

(** On a text without commas, [re.search] with the price pattern returns the
    first numeric token. *)
Lemma price_search_token (s : pystr) (i : nat) :
  Forall (fun c => c <> 44%N) s ->
  group 0 3 <$> search_from price_re s i = first_numeric_token s.
Proof.
  intros H. revert i. induction H as [|c s Hc Hs IH]; intros i; [easy|].
  cbn [search_from]. rewrite match_price. cbv zeta.
  rewrite (run_price_class (c :: s)) by now constructor.
  cbn [first_numeric_token].
  destruct (isdecimal c) eqn:Ed.
  - assert (Hrun : run Digit (c :: s) = S (run Digit s)) by (simpl; now rewrite Ed).
    rewrite Hrun. cbn [Nat.eqb]. rewrite <- Hrun. clear Hrun.
    cbn [fmap option_fmap option_map].
    f_equal. unfold group. cbn [snd drop take concat].
    rewrite app_nil_r, take_run_digits.
    f_equal.
    replace (length (digits_prefix (c :: s))) with (run Digit (c :: s)).
    + apply fraction_matched, run_digits_end.
    + rewrite <- take_run_digits, length_take.
      pose proof (run_le_length Digit (c :: s)). lia.
  - assert (Hrun : run Digit (c :: s) = 0) by (simpl; now rewrite Ed).
    rewrite Hrun. cbn [Nat.eqb]. apply IH.
Qed.

End Token.

Section PriceFacts.
Context {R : Runtime}.

Lemma decimals_digits_prefix (s : pystr) :
  exists ds, decimals (digits_prefix s) = Some ds.
Proof.
  induction s as [|c s [ds IH]]; simpl; [now exists []|].
  unfold isdecimal. destruct (decimal c) as [d|] eqn:E.
  - rewrite bool_decide_eq_true_2 by easy. simpl. rewrite E, IH. now eexists.
  - rewrite bool_decide_eq_false_2 by (now intros [x Hx]). now exists [].
Qed.

Lemma split_dot_digits (m rest : pystr) (ds : list N) :
  decimals m = Some ds ->
  split_dot m = (m, None)
  /\ split_dot (m ++ 46%N :: rest) = (m, Some rest).
Proof.
  revert ds. induction m as [|c m IH]; simpl; intros ds H.
  - now rewrite ?N.eqb_refl.
  - destruct (decimal c) as [d|] eqn:Ed; [|easy].
    destruct (decimals m) as [ds'|]; [|easy].
    destruct (IH ds' eq_refl) as [-> ->].
    destruct (c =? 46)%N eqn:E; [|easy].
    apply N.eqb_eq in E. subst c. rewrite decimal_full_stop in Ed. easy.
Qed.

Lemma decimals_app (a b : pystr) (da db : list N) :
  decimals a = Some da -> decimals b = Some db ->
  decimals (a ++ b) = Some (da ++ db).
Proof.
  revert da. induction a as [|c a IH]; simpl; intros da.
  - now intros [= <-].
  - destruct (decimal c); [|easy]. destruct (decimals a) as [da'|]; [|easy].
    intros [= <-] Hb. now rewrite (IH da' eq_refl Hb).
Qed.

(** The value that [float()] gives to a numeral with integer digits [m1]
    and, after a full stop, fraction digits [m3]. *)
Lemma python_float_numeral (m1 m3 : pystr) (d1 d3 : list N) :
  decimals m1 = Some d1 -> m1 <> [] -> decimals m3 = Some d3 ->
  python_float m1 = Ok (float_of_ratio (digits_value d1) 1)
  /\ python_float (m1 ++ 46%N :: m3)
     = Ok (float_of_ratio (digits_value (d1 ++ d3)) (pow10 (length d3))).
Proof.
  intros H1 Hne H3. unfold python_float.
  destruct (split_dot_digits m1 m3 d1 H1) as [-> ->]. simpl.
  rewrite H1, H3.
  assert (Hd : d1 <> []).
  { intros ->. apply decimals_length in H1. now destruct m1. }
  split.
  - rewrite app_nil_r. now destruct d1.
  - destruct d1; [easy | now simpl].
Qed.

Lemma token_float (s tok : pystr) :
  first_numeric_token s = Some tok ->
  exists v, python_float tok = Ok v /\ nonneg_float v.
Proof.
  revert tok. induction s as [|c s IH]; intros tok; [easy|].
  cbn [first_numeric_token].
  destruct (isdecimal c) eqn:Ec; [|now apply IH]. intros [= <-].
  change (if isdecimal c then c :: digits_prefix s else [])
    with (digits_prefix (c :: s)).
  destruct (decimals_digits_prefix (c :: s)) as [d1 H1].
  assert (Hne : digits_prefix (c :: s) <> []) by (simpl; now rewrite Ec).
  set (rest := drop _ _). unfold fraction_part.
  destruct rest as [|x r].
  { rewrite app_nil_r.
    destruct (python_float_numeral _ [] d1 [] H1 Hne eq_refl) as [-> _].
    eexists; split; [easy | apply float_of_ratio_nonneg]. }
  destruct (decide (x = 46%N)) as [->|Hx].
  - destruct (decimals_digits_prefix r) as [d3 H3].
    destruct (python_float_numeral _ _ d1 d3 H1 Hne H3) as [_ ->].
    eexists; split; [easy | apply float_of_ratio_nonneg].
  - replace (match x with 46%N => 46%N :: digits_prefix r | _ => [] end)
      with (@nil N).
    + rewrite app_nil_r.
      destruct (python_float_numeral _ [] d1 [] H1 Hne eq_refl) as [-> _].
      eexists; split; [easy | apply float_of_ratio_nonneg].
    + destruct x as [|p]; [easy|].
      do 6 (destruct p as [p|p|]; try easy).
Qed.

(** What [clean_price] computes on a text that is neither empty nor the
    sentinel. *)
Lemma clean_price_token (s : pystr) :
  s <> [] -> s <> py "Price Unavailable" ->
  clean_price (Some s) =
  match first_numeric_token (without_commas s) with
  | Some tok =>
    usd_price ← python_float tok;
    Ok (fmul usd_price (float_of_Z USD_TO_IDR_RATE))
  | None => Ok fzero
  end.
Proof.
  intros Hne Hs. unfold clean_price.
  replace (falsy (Some s)) with false by now destruct s.
  rewrite bool_decide_eq_false_2 by congruence.
  cbn [orb from_option id].
  change (py ",") with [44%N]. rewrite replace_comma.
  rewrite <- (price_search_token _ 0 (without_commas_clean s)).
  unfold re_search. now destruct (search_from _ _ _).
Qed.

Lemma clean_price_nonneg (x : option pystr) :
  exists v, clean_price x = Ok v /\ nonneg_float v.
Proof.
  destruct x as [s|]; [|now exists fzero].
  destruct s as [|c s]; [now exists fzero|].
  destruct (decide (c :: s = py "Price Unavailable")) as [E|E].
  { exists fzero. split; [|easy]. unfold clean_price.
    rewrite bool_decide_eq_true_2 by congruence. now rewrite orb_true_r. }
  rewrite clean_price_token by easy.
  destruct (first_numeric_token _) as [tok|] eqn:Et; [|now exists fzero].
  destruct (token_float _ _ Et) as (v & -> & Hv).
  eexists; split; [reflexivity | now apply fmul_rate_nonneg].
Qed.

End PriceFacts.

(** C10. For every input, absent or present, [clean_price] returns a float
    (it never raises), the float is not NaN and is greater than or equal to
    0, and the only value that the filter [price > 0] rejects is 0 itself.
    A minus sign is not part of the numeric token: "-5.00" is priced 5
    times the rate. *)
Theorem clean_price_total_nonneg :
  (forall (R : Runtime) (price_str : option pystr),
      exists v : float,
        clean_price price_str = Ok v
        /\ isnan v = false
        /\ fge v fzero = true
        /\ (fgt v fzero = false -> v = fzero))
  /\ @clean_price ascii_runtime (Some (py "-5.00")) = Ok (float_of_Z 80000)
  /\ fgt (float_of_Z 80000) fzero = true.
Proof.
  split; [|split; now vm_compute].
  intros R price_str.
  destruct (clean_price_nonneg price_str) as (v & Hv & Hn).
  exists v. destruct (nonneg_float_ge v Hn) as [H1 H2].
  repeat split; try easy. now apply nonneg_float_not_gt.
Qed.

Lemma clean_price_total_nonneg_witness :
  exists v : float,
    @clean_price ascii_runtime (Some (py "Not a price")) = Ok v /\ v = fzero.
Proof.
  destruct (proj1 clean_price_total_nonneg ascii_runtime (Some (py "Not a price")))
    as (v & Hv & _ & _ & Hzero).
  exists v. split; [exact Hv|]. apply Hzero.
  rewrite <- (f_equal (fun r => match r with Ok x => fgt x fzero | Raise _ => false end) Hv).
  now vm_compute.
Defined.

(** C7. [clean_price] returns 0 for an absent or empty input and for the
    sentinel "Price Unavailable". For any other text it takes the first
    numeric token of the text without its commas (a run of digits, then a
    full stop and further digits when they follow) and returns the float
    read from that token times the conversion rate 16000, and it returns 0
    when the text has no numeric token. On "$100.00" the result is 100
    times the rate. *)
Theorem clean_price_spec :
  (forall R : Runtime,
      clean_price None = Ok fzero
      /\ clean_price (Some []) = Ok fzero
      /\ clean_price (Some (py "Price Unavailable")) = Ok fzero
      /\ forall s : pystr,
          s <> [] -> s <> py "Price Unavailable" ->
          match first_numeric_token (without_commas s) with
          | Some tok =>
            exists usd_price : float,
              python_float tok = Ok usd_price
              /\ clean_price (Some s)
                 = Ok (fmul usd_price (float_of_Z USD_TO_IDR_RATE))
          | None => clean_price (Some s) = Ok fzero
          end)
  /\ @clean_price ascii_runtime (Some (py "$100.00"))
     = Ok (fmul (float_of_Z 100) (float_of_Z USD_TO_IDR_RATE))
  /\ @clean_price ascii_runtime (Some (py "$100.00")) = Ok (float_of_Z 1600000).
Proof.
  split; [|split; now vm_compute].
  intros R. repeat split; try easy.
  intros s Hne Hs. rewrite (clean_price_token s Hne Hs).
  destruct (first_numeric_token _) as [tok|] eqn:Et; [|easy].
  destruct (token_float _ _ Et) as (v & Hv & _).
  exists v. now rewrite Hv.
Qed.

Lemma clean_price_spec_witness :
  exists usd_price : float,
    @python_float ascii_runtime (py "1234.56") = Ok usd_price
    /\ @clean_price ascii_runtime (Some (py "$1,234.56"))
       = Ok (fmul usd_price (float_of_Z USD_TO_IDR_RATE)).
Proof.
  exact (proj2 (proj2 (proj2 (proj1 clean_price_spec ascii_runtime)))
           (py "$1,234.56") ltac:(easy) ltac:(easy)).
Defined.

(** ** The rating cleaner *)

Section RatingFacts.
Context {R : Runtime}.

Lemma decimals_of_digits (m : pystr) :
  Forall (fun c => cls_match Digit c = true) m -> exists ds, decimals m = Some ds.
Proof.
  induction 1 as [|c m Hc _ [ds IH]]; simpl; [now exists []|].
  simpl in Hc. unfold isdecimal in Hc. apply bool_decide_eq_true in Hc.
  destruct Hc as [d ->]. rewrite IH. now eexists.
Qed.

Lemma optional_char (c : N) (m : pystr) :
  item_ok (Chr c, Opt) m -> m = [] \/ m = [c].
Proof.
  intros [Hm Hq]. simpl in Hm, Hq.
  destruct m as [|a [|b m]]; [now left | right | simpl in Hq; lia].
  inversion Hm as [|? ? Ha _]; subst. apply N.eqb_eq in Ha. now subst.
Qed.

(** A score, as group 1 of the rating pattern matches it, is a numeral that
    [float()] reads, and its value is not negative. *)
Lemma score_float (m1 m2 m3 : pystr) :
  item_ok (Digit, Plus) m1 -> item_ok (Chr 46, Opt) m2 -> item_ok (Digit, Star) m3 ->
  exists v, python_float (m1 ++ m2 ++ m3) = Ok v /\ nonneg_float v.
Proof.
  intros [H1 Hq1] H2 [H3 _]. simpl in H1, Hq1, H3.
  destruct (decimals_of_digits m1 H1) as [d1 E1].
  destruct (decimals_of_digits m3 H3) as [d3 E3].
  assert (Hne : m1 <> []) by (destruct m1; [simpl in Hq1; lia | easy]).
  destruct (optional_char _ _ H2) as [-> | ->]; simpl.
  - assert (Hne' : m1 ++ m3 <> []) by now destruct m1.
    destruct (python_float_numeral (m1 ++ m3) [] _ []
                (decimals_app _ _ _ _ E1 E3) Hne' eq_refl) as [-> _].
    eexists; split; [easy | apply float_of_ratio_nonneg].
  - destruct (python_float_numeral m1 m3 d1 d3 E1 Hne E3) as [_ ->].
    eexists; split; [easy | apply float_of_ratio_nonneg].
Qed.

Lemma rating_match_float (s : pystr) (i : nat) (ms : list pystr) :
  matches rating_re ms ->
  exists v, python_float (group 0 3 (i, ms)) = Ok v /\ nonneg_float v.
Proof.
  intros H. unfold matches, rating_re in H.
  inversion H as [|? m1 ? r1 H1 T1]; subst.
  inversion T1 as [|? m2 ? r2 H2 T2]; subst.
  inversion T2 as [|? m3 ? r3 H3 T3]; subst.
  unfold group. cbn [snd drop take concat]. rewrite app_nil_r.
  now apply score_float.
Qed.

(** What [clean_rating] computes on a text that passes the three guards. *)
Lemma clean_rating_search (s : pystr) :
  s <> [] -> s <> py "Not Rated" -> contains (py "Invalid Rating") s = false ->
  clean_rating (Some s) =
  match re_search rating_re s with
  | Some rating_match => Some <$> python_float (group 0 3 rating_match)
  | None => Ok None
  end.
Proof.
  intros Hne Hs Hi. unfold clean_rating.
  replace (falsy (Some s)) with false by now destruct s.
  rewrite bool_decide_eq_false_2 by congruence.
  cbn [orb from_option id]. now rewrite Hi.
Qed.

Lemma clean_rating_total (x : option pystr) :
  exists v, clean_rating x = Ok v.
Proof.
  destruct x as [s|]; [|now exists None].
  destruct s as [|c s]; [now exists None|].
  unfold clean_rating. cbn [falsy orb from_option id].
  destruct (bool_decide _); [now exists None|].
  destruct (contains _ _); [now exists None|].
  destruct (re_search rating_re (c :: s)) as [[i ms]|] eqn:E; [|now exists None].
  destruct (re_search_Some _ _ _ _ E) as [[Hm _] _].
  destruct (rating_match_float (c :: s) i ms Hm) as (v & -> & _).
  now eexists.
Qed.

End RatingFacts.

(** C4, as the code has it. [clean_rating] returns [None] for an absent or
    empty input and for the sentinel "Not Rated", and for every text that
    contains "Invalid Rating". For any other text, either the pattern
    "score / scale" (digits with an optional fraction, blanks, a slash,
    blanks, digits) occurs nowhere in it and the result is [None], or the
    result is the float read from the score of an occurrence that starts
    before or where every other occurrence starts. On the text made of a
    star and " 4.5 / 5" the result is 4.5. *)
Theorem clean_rating_spec :
  (forall R : Runtime,
      clean_rating None = Ok None
      /\ clean_rating (Some []) = Ok None
      /\ clean_rating (Some (py "Not Rated")) = Ok None
      /\ (forall s : pystr,
            contains (py "Invalid Rating") s = true ->
            clean_rating (Some s) = Ok None)
      /\ forall s : pystr,
          s <> [] -> s <> py "Not Rated" ->
          contains (py "Invalid Rating") s = false ->
          ((forall i ms, ~ occurs_at rating_re s i ms)
           /\ clean_rating (Some s) = Ok None)
          \/ exists (i : nat) (ms : list pystr) (score : float),
               occurs_at rating_re s i ms
               /\ (forall j ms', occurs_at rating_re s j ms' -> i <= j)
               /\ python_float (concat (take 3 ms)) = Ok score
               /\ clean_rating (Some s) = Ok (Some score))
  /\ @clean_rating ascii_runtime (Some (py "⭐ 4.5 / 5"))
     = Ok (Some (float_of_ratio 45 10)).
Proof.
  split; [|now vm_compute].
  intros R. repeat split; try easy.
  - intros s Hs. unfold clean_rating. cbn [from_option id]. rewrite Hs.
    now destruct (falsy (Some s) || bool_decide _).
  - intros s Hne Hs Hi. rewrite (clean_rating_search s Hne Hs Hi).
    destruct (re_search rating_re s) as [[i ms]|] eqn:E.
    + right. destruct (re_search_Some _ _ _ _ E) as [Hocc Hleft].
      destruct (rating_match_float s i ms (proj1 Hocc)) as (v & Hv & _).
      exists i, ms, v.
      split; [easy|]. split; [easy|]. split; [exact Hv|]. now rewrite Hv.
    + left. split; [|easy]. now apply re_search_None.
Qed.

Lemma clean_rating_spec_witness :
  @clean_rating ascii_runtime (Some (py "⭐ Invalid Rating / 5")) = Ok None.
Proof.
  exact (proj1 (proj2 (proj2 (proj2 (proj1 clean_rating_spec ascii_runtime))))
           (py "⭐ Invalid Rating / 5") ltac:(now vm_compute)).
Defined.

(** C4 as stated fails: the text "Invalid 4.5 / 5" contains "Invalid", and
    its rating is 4.5, not [None]. *)
Lemma clean_rating_invalid_counterexample :
  contains (py "Invalid") (py "Invalid 4.5 / 5") = true
  /\ @clean_rating ascii_runtime (Some (py "Invalid 4.5 / 5"))
     = Ok (Some (float_of_ratio 45 10))
  /\ ~ (forall s : pystr,
          contains (py "Invalid") s = true ->
          @clean_rating ascii_runtime (Some s) = Ok None).
Proof.
  split; [now vm_compute|]. split; [now vm_compute|].
  intros H. specialize (H (py "Invalid 4.5 / 5") ltac:(now vm_compute)).
  now vm_compute in H.
Qed.



(** ** Keys and duplicates *)

Lemma float_same_iff (x y : float) :
  float_same x y = true <->
  match x, y with
  | S754_nan, S754_nan => True
  | S754_zero _, S754_zero _ => True
  | S754_infinity s1, S754_infinity s2 => s1 = s2
  | S754_finite s1 m1 e1, S754_finite s2 m2 e2 => s1 = s2 /\ m1 = m2 /\ e1 = e2
  | _, _ => False
  end.
Proof.
  destruct x as [s1|s1| |s1 m1 e1], y as [s2|s2| |s2 m2 e2];
    unfold float_same, SFeqb; simpl; try easy;
    try (destruct s1, s2; easy).
  destruct s1, s2; try easy.
  - destruct (Z.compare_spec e1 e2) as [->| |]; [|split; [easy|lia]..].
    change (Pos.compare_cont Eq m1 m2) with (m1 ?= m2)%positive.
    destruct (Pos.compare_spec m1 m2) as [->| |]; simpl; split; try easy; lia.
  - destruct (Z.compare_spec e1 e2) as [->| |]; [|split; [easy|lia]..].
    change (Pos.compare_cont Eq m1 m2) with (m1 ?= m2)%positive.
    destruct (Pos.compare_spec m1 m2) as [->| |]; simpl; split; try easy; lia.
Qed.

Lemma float_same_refl (x : float) : float_same x x = true.
Proof. apply float_same_iff. now destruct x. Qed.

Lemma float_same_sym (x y : float) : float_same x y = float_same y x.
Proof.
  apply eq_true_iff_eq. rewrite !float_same_iff.
  destruct x, y; try easy; intuition congruence.
Qed.

Lemma float_same_trans (x y z : float) :
  float_same x y = true -> float_same y z = true -> float_same x z = true.
Proof.
  rewrite !float_same_iff.
  destruct x, y, z; try easy; intuition congruence.
Qed.

Lemma key_eqb_iff (a b : Key) :
  key_eqb a b = true <->
  a.1.1.1 = b.1.1.1 /\ float_same a.1.1.2 b.1.1.2 = true
  /\ a.1.2 = b.1.2 /\ a.2 = b.2.
Proof.
  destruct a as [[[t1 p1] s1] g1], b as [[[t2 p2] s2] g2]. simpl.
  rewrite !andb_true_iff, !bool_decide_eq_true. tauto.
Qed.

Lemma key_eqb_refl (a : Key) : key_eqb a a = true.
Proof. apply key_eqb_iff. now rewrite float_same_refl. Qed.

Lemma key_eqb_sym (a b : Key) : key_eqb a b = key_eqb b a.
Proof.
  apply eq_true_iff_eq. rewrite !key_eqb_iff, (float_same_sym a.1.1.2).
  intuition congruence.
Qed.

Lemma key_eqb_trans (a b c : Key) :
  key_eqb a b = true -> key_eqb b c = true -> key_eqb a c = true.
Proof.
  rewrite !key_eqb_iff. intros (-> & Hp & -> & ->) (-> & Hq & -> & ->).
  repeat split. now apply (float_same_trans _ b.1.1.2).
Qed.

Lemma key_eqb_false_l (a b c : Key) :
  key_eqb a b = true -> key_eqb a c = false -> key_eqb b c = false.
Proof.
  intros Hab Hac. destruct (key_eqb b c) eqn:E; [|easy].
  now rewrite (key_eqb_trans a b c Hab E) in Hac.
Qed.

Lemma seen_equiv (a b : Key) (seen : list Key) :
  key_eqb a b = true -> existsb (key_eqb a) seen = existsb (key_eqb b) seen.
Proof.
  intros Hab. induction seen as [|k seen IH]; simpl; [easy|].
  rewrite IH. f_equal.
  destruct (key_eqb a k) eqn:E.
  - symmetry. apply (key_eqb_trans b a k); [|easy]. now rewrite key_eqb_sym.
  - symmetry. now apply (key_eqb_false_l a b k).
Qed.

Section DedupFacts.
Context {A : Type} (kf : A -> Key).

Lemma dedup_from_cons (seen : list Key) (x : A) (l : list A) :
  dedup_from kf seen (x :: l) =
  if existsb (key_eqb (kf x)) seen then dedup_from kf (kf x :: seen) l
  else x :: dedup_from kf (kf x :: seen) l.
Proof. unfold dedup_from. simpl. now destruct (existsb _ seen). Qed.

Lemma dedup_from_sublist (seen : list Key) (l : list A) :
  sublist (dedup_from kf seen l) l.
Proof.
  revert seen. induction l as [|x l IH]; intros seen; [constructor|].
  rewrite dedup_from_cons. destruct (existsb _ seen).
  - apply sublist_cons, IH.
  - apply sublist_skip, IH.
Qed.

(** Every kept element has a key that was not seen before. *)
Lemma dedup_from_fresh (seen : list Key) (l : list A) (y : A) :
  In y (dedup_from kf seen l) -> existsb (key_eqb (kf y)) seen = false.
Proof.
  revert seen. induction l as [|x l IH]; intros seen; [easy|].
  rewrite dedup_from_cons. destruct (existsb (key_eqb (kf x)) seen) eqn:E.
  - intros H. apply IH in H. simpl in H. now apply orb_false_elim in H.
  - intros [<-|H]; [easy|]. apply IH in H. simpl in H.
    now apply orb_false_elim in H.
Qed.

Lemma dedup_from_distinct (seen : list Key) (l : list A) :
  distinct_keys kf (dedup_from kf seen l).
Proof.
  revert seen. induction l as [|x l IH]; intros seen; [easy|].
  rewrite dedup_from_cons. destruct (existsb _ seen); [apply IH|].
  split; [|apply IH].
  apply List.Forall_forall. intros y Hy.
  apply dedup_from_fresh in Hy. simpl in Hy. apply orb_false_elim in Hy.
  rewrite key_eqb_sym. easy.
Qed.

(** For a key not seen before, the first element with that key is kept;
    for a key seen before, none is. *)
Lemma dedup_from_first (seen : list Key) (l : list A) (k : Key) :
  first_with kf k (dedup_from kf seen l) =
  if existsb (key_eqb k) seen then None else first_with kf k l.
Proof.
  revert seen. induction l as [|x l IH]; intros seen.
  - now destruct (existsb _ seen).
  - rewrite dedup_from_cons. unfold first_with in *.
    destruct (existsb (key_eqb (kf x)) seen) eqn:Ex.
    + rewrite IH. simpl. destruct (key_eqb k (kf x)) eqn:Ek.
      * rewrite (seen_equiv k (kf x) seen Ek), Ex. easy.
      * simpl. now destruct (existsb (key_eqb k) seen).
    + simpl. rewrite IH. simpl. destruct (key_eqb k (kf x)) eqn:Ek.
      * rewrite (seen_equiv k (kf x) seen Ek), Ex. easy.
      * easy.
Qed.

End DedupFacts.

Section KeepFacts.
Context {A : Type} (kf : A -> Key).

Lemma duplicated_from_length (seen ks : list Key) :
  length (duplicated_from seen ks) = length ks.
Proof.
  revert seen. induction ks as [|k ks IH]; intros seen; simpl; [easy|].
  now rewrite IH.
Qed.

Lemma zip_rev {B C} (l : list B) (k : list C) :
  length l = length k -> zip (rev l) (rev k) = rev (zip l k).
Proof.
  revert k. induction l as [|x l IH]; intros [|y k]; simpl; try easy.
  intros [= H]. rewrite zip_with_app; [now rewrite IH|].
  now rewrite !length_rev.
Qed.

Lemma filter_rev {B} (f : B -> bool) (l : list B) :
  List.filter f (rev l) = rev (List.filter f l).
Proof.
  induction l as [|x l IH]; simpl; [easy|].
  rewrite List.filter_app, IH. simpl.
  destruct (f x); simpl; now rewrite ?app_nil_r.
Qed.

(** Flagging from the end keeps what flagging the reversed list keeps. *)
Lemma dedup_last_rev (l : list A) :
  map fst
    (List.filter (fun x => negb (snd x))
       (zip l (duplicated last (map kf l))))
  = rev (dedup_from kf [] (rev l)).
Proof.
  unfold dedup_from, duplicated.
  rewrite <- (map_rev kf l).
  set (F := duplicated_from [] (map kf (rev l))).
  rewrite <- (map_rev fst), <- filter_rev, <- zip_rev.
  - now rewrite rev_involutive.
  - unfold F. now rewrite duplicated_from_length, length_map.
Qed.

Lemma dedup_from_map {B} (g : B -> A) (seen : list Key) (l : list B) :
  map g (dedup_from (fun x => kf (g x)) seen l) = dedup_from kf seen (map g l).
Proof.
  revert seen. induction l as [|x l IH]; intros seen; [easy|].
  simpl map. rewrite !dedup_from_cons.
  destruct (existsb _ seen); simpl; now rewrite IH.
Qed.

Lemma sublist_rev {B} (l1 l2 : list B) :
  sublist l1 l2 -> sublist (rev l1) (rev l2).
Proof.
  induction 1 as [|x l1 l2 _ IH|x l1 l2 _ IH]; simpl.
  - constructor.
  - now apply sublist_app.
  - rewrite <- (app_nil_r (rev l1)). apply sublist_app; [easy|].
    apply sublist_nil_l.
Qed.

Lemma distinct_keys_app (l1 l2 : list A) :
  distinct_keys kf l1 -> distinct_keys kf l2 ->
  (forall x y, In x l1 -> In y l2 -> key_eqb (kf x) (kf y) = false) ->
  distinct_keys kf (l1 ++ l2).
Proof.
  induction l1 as [|a l1 IH]; simpl; [easy|].
  intros [Ha H1] H2 Hx. split.
  - apply Forall_app. split; [easy|].
    apply List.Forall_forall. intros y Hy. apply Hx; [now left | easy].
  - apply IH; try easy. intros x y Hi Hj. apply Hx; [now right | easy].
Qed.

Lemma distinct_keys_rev (l : list A) :
  distinct_keys kf l -> distinct_keys kf (rev l).
Proof.
  induction l as [|x l IH]; [easy|]. intros [Hx Hl]. simpl.
  apply distinct_keys_app; [now apply IH | easy |].
  intros a b Ha [<-|[]]. apply in_rev in Ha.
  rewrite key_eqb_sym. now apply (proj1 (List.Forall_forall _ _) Hx).
Qed.

(** What [drop_duplicates] keeps, for an element type [B] paired with
    labels: a selection in order, without two equal keys, holding for each
    key the first (or the last) element that has it. *)
Lemma keep_first_spec (l : list A) :
  let out := dedup_from kf [] l in
  sublist out l /\ distinct_keys kf out
  /\ forall k, first_with kf k out = first_with kf k l.
Proof.
  split; [apply dedup_from_sublist|]. split; [apply dedup_from_distinct|].
  intros k. now rewrite dedup_from_first.
Qed.

Lemma keep_last_spec (l : list A) :
  let out := rev (dedup_from kf [] (rev l)) in
  sublist out l /\ distinct_keys kf out
  /\ forall k, last_with kf k out = last_with kf k l.
Proof.
  split; [|split].
  - rewrite <- (rev_involutive l) at 2. apply sublist_rev, dedup_from_sublist.
  - apply distinct_keys_rev, dedup_from_distinct.
  - intros k. unfold last_with. rewrite rev_involutive.
    now rewrite dedup_from_first.
Qed.

End KeepFacts.

(** ** Frames *)

Lemma range_index_rows (rows : list Row) : map snd (range_index rows) = rows.
Proof. unfold range_index. apply snd_zip. now rewrite length_seq. Qed.

Lemma range_index_labels (rows : list Row) :
  map fst (range_index rows) = seq 0 (length rows).
Proof. unfold range_index. apply fst_zip. now rewrite length_seq. Qed.

Lemma range_index_length (rows : list Row) :
  length (range_index rows) = length rows.
Proof. now rewrite <- (length_map snd), range_index_rows. Qed.

Lemma filter_rows (f : Row -> bool) (df : DataFrame) :
  map snd (List.filter (fun x => f (snd x)) df) = List.filter f (map snd df).
Proof. now rewrite filter_map_swap. Qed.

Lemma drop_duplicates_first_rows (df : DataFrame) :
  map snd (drop_duplicates first df) = dedup_from key [] (map snd df).
Proof. apply (dedup_from_map key snd). Qed.

Lemma drop_duplicates_last_rows (df : DataFrame) :
  map snd (drop_duplicates last df) = rev (dedup_from key [] (rev (map snd df))).
Proof.
  unfold drop_duplicates.
  rewrite (dedup_last_rev (fun x => key (snd x)) df).
  rewrite map_rev, (dedup_from_map key snd). now rewrite map_rev.
Qed.

Lemma filter_filter {B} (f g : B -> bool) (l : list B) :
  List.filter g (List.filter f l) = List.filter (fun x => f x && g x) l.
Proof.
  induction l as [|x l IH]; simpl; [easy|].
  destruct (f x); simpl; [|easy]. destruct (g x); now rewrite IH.
Qed.

Section StepsFacts.
Context {R : Runtime}.

(** The frame that the steps 2 to 6 leave. *)
Lemma validator_steps_eq (rows : list Row) :
  validator_steps rows
  = range_index (dedup_from key [] (List.filter admissible rows)).
Proof.
  unfold validator_steps, reset_index, dropna.
  rewrite drop_duplicates_first_rows. do 2 f_equal.
  rewrite !filter_filter.
  rewrite <- (range_index_rows rows) at 2.
  now rewrite <- (filter_rows admissible).
Qed.

Lemma validator_steps_rows (rows : list Row) :
  map snd (validator_steps rows)
  = dedup_from key [] (List.filter admissible rows).
Proof. now rewrite validator_steps_eq, range_index_rows. Qed.

Lemma validator_steps_labels (rows : list Row) :
  map fst (validator_steps rows) = seq 0 (length (validator_steps rows)).
Proof.
  unfold validator_steps, reset_index.
  now rewrite range_index_labels, range_index_length.
Qed.

Lemma mapM_value {A B} (f : A -> result B) (d : B) (l : list A) :
  (forall x, exists y, f x = Ok y) ->
  mapM f l = Ok (map (fun x => value d (f x)) l).
Proof.
  intros Hf. induction l as [|x l IH]; [easy|].
  destruct (Hf x) as [y Hy].
  change (mapM f (x :: l)) with (y' ← f x; k ← mapM f l; mret (y' :: k)).
  rewrite IH, Hy. simpl. now rewrite Hy.
Qed.

Lemma assign_typed (raw : list RawRecord) :
  assign raw
    (map (fun r => value fzero (clean_price (raw_price r))) raw)
    (map (fun r => value None (clean_rating (raw_rating r))) raw)
    (map (fun r => value None (clean_colors (raw_colors r))) raw)
    (map (fun r => standardize_size (raw_size r)) raw)
    (map (fun r => standardize_gender (raw_gender r)) raw)
  = map typed raw.
Proof. induction raw as [|r raw IH]; simpl; [easy | now rewrite IH]. Qed.

Lemma typed_normalised (r : RawRecord) : normalised r (typed r).
Proof.
  unfold normalised, typed. simpl.
  destruct (clean_price_nonneg (raw_price r)) as (p & -> & _).
  destruct (clean_rating_total (raw_rating r)) as (ra & ->).
  rewrite (clean_colors_total (raw_colors r)). easy.
Qed.

(** [transform_fashion_data] never raises; it is the steps 2 to 6 applied to
    the typed rows. *)
Lemma transform_steps (raw_data : list RawRecord) :
  transform_fashion_data raw_data = Ok (validator_steps (map typed raw_data)).
Proof.
  destruct raw_data as [|r raw]; [easy|].
  unfold transform_fashion_data.
  rewrite (mapM_value _ fzero).
  2: { intros x. destruct (clean_price_nonneg (raw_price x)) as (v & Hv & _).
       now exists v. }
  cbn [mbind result_bind].
  rewrite (mapM_value (fun r => clean_rating (raw_rating r)) None)
    by (intros x; apply clean_rating_total).
  cbn [mbind result_bind].
  rewrite (mapM_value _ None).
  2: { intros x. rewrite clean_colors_total. now eexists. }
  cbn [mbind result_bind]. now rewrite assign_typed.
Qed.

End StepsFacts.

(** ** The validator *)

Section ValidatorFacts.
Context {R : Runtime}.

Lemma typed_all_normalised (raw : list RawRecord) :
  Forall2 normalised raw (map typed raw).
Proof.
  induction raw as [|r raw IH]; simpl; constructor; [apply typed_normalised | easy].
Qed.

Lemma admissible_present (row : Row) :
  admissible row = true ->
  (exists t, title row = Some t /\ is_valid_title (Some t) = true)
  /\ isnan (price row) = false
  /\ (exists v, rating row = Some v /\ isnan v = false)
  /\ (exists n, colors row = Some n)
  /\ (exists s, size row = Some s)
  /\ (exists g, gender row = Some g)
  /\ fgt (price row) fzero = true.
Proof.
  unfold admissible, complete, notna_opt_float, notna_float, notna.
  rewrite !andb_true_iff, !negb_true_iff.
  intros (Ht & (((((Hti & Hp) & Hr) & Hc) & Hs) & Hg) & Hpos).
  destruct (title row) as [t|]; [|easy].
  destruct (rating row) as [v|]; [|easy]. apply negb_true_iff in Hr.
  destruct (colors row) as [n|]; [|easy].
  destruct (size row) as [s|]; [|easy].
  destruct (gender row) as [g|]; [|easy].
  repeat split; eauto.
Qed.

Lemma sentinel_not_admissible (r : RawRecord) :
  sentinel_defaults r -> admissible (typed r) = false.
Proof.
  intros (Hp & _). unfold admissible, typed. simpl. rewrite Hp.
  now rewrite !andb_false_r.
Qed.

End ValidatorFacts.

(** C9. [transform_fashion_data] returns a frame, and every row of that
    frame has a title, a price that is a number, a rating, a number of
    colours, a size and a gender, none of them absent, and a price greater
    than 0. A record that holds the sentinel defaults in every field but the
    title leaves no trace: the output is the same with and without it, and
    on its own it gives the empty frame. *)
Theorem validated_rows_complete (R : Runtime) :
  (forall raw_data : list RawRecord,
      exists out : DataFrame,
        transform_fashion_data raw_data = Ok out
        /\ forall (i : nat) (row : Row),
            In (i, row) out ->
            (exists t, title row = Some t)
            /\ isnan (price row) = false
            /\ (exists v, rating row = Some v /\ isnan v = false)
            /\ (exists n, colors row = Some n)
            /\ (exists s, size row = Some s)
            /\ (exists g, gender row = Some g)
            /\ fgt (price row) fzero = true)
  /\ (forall (pre post : list RawRecord) (r : RawRecord),
        sentinel_defaults r ->
        transform_fashion_data (pre ++ r :: post)
        = transform_fashion_data (pre ++ post))
  /\ forall r : RawRecord,
      sentinel_defaults r -> transform_fashion_data [r] = Ok [].
Proof.
  assert (Hdrop : forall pre post r, sentinel_defaults r ->
    transform_fashion_data (pre ++ r :: post)
    = transform_fashion_data (pre ++ post)).
  { intros pre post r Hr. rewrite !transform_steps, !validator_steps_eq.
    rewrite !map_app, !List.filter_app. simpl.
    now rewrite (sentinel_not_admissible r Hr). }
  split; [|split; [exact Hdrop|]].
  - intros raw_data. exists (validator_steps (map typed raw_data)).
    split; [apply transform_steps|].
    intros i row Hin.
    assert (Hrow : In row (map snd (validator_steps (map typed raw_data))))
      by (apply in_map_iff; now exists (i, row)).
    rewrite validator_steps_rows in Hrow.
    apply list_elem_of_In in Hrow.
    eapply elem_of_sublist in Hrow; [|apply dedup_from_sublist].
    apply list_elem_of_In, filter_In in Hrow. destruct Hrow as [_ Hadm].
    destruct (admissible_present row Hadm) as ([t [Ht _]] & H).
    split; [now exists t | exact H].
  - intros r Hr. exact (Hdrop [] [] r Hr).
Qed.

Lemma validated_rows_complete_witness :
  @transform_fashion_data ascii_runtime
    [tshirt "10:00:00"; bare "Hoodie 2" "10:00:00"]
  = @transform_fashion_data ascii_runtime [tshirt "10:00:00"].
Proof.
  exact (proj1 (proj2 (validated_rows_complete ascii_runtime))
           [tshirt "10:00:00"] [] (bare "Hoodie 2" "10:00:00")
           (conj eq_refl (conj eq_refl (conj eq_refl (conj eq_refl eq_refl))))).
Defined.

(** C1. For every sequence of raw records the validator returns a frame,
    obtained by these steps in this order: the cleaners are applied to the
    fields of every record; the rows with an invalid title are dropped, then
    those with an absent value in title, price, rating, colors, size or
    gender, then those whose price is not greater than 0; of the rows that
    share a key (title, price, size, gender) the first is kept; the index is
    renumbered from 0. So the rows of the output are a selection, in order,
    of the admissible rows, no two of them share a key, for every key the
    output holds the first admissible row with that key, and the labels are
    0, 1, 2, ... Two identical records priced "$25.99" give one row, priced
    25.99 times the rate, and it is the first of the two that is kept. *)
Theorem transform_fashion_data_spec :
  (forall (R : Runtime) (raw_data : list RawRecord),
      exists (rows : list Row) (out : DataFrame),
        Forall2 normalised raw_data rows
        /\ transform_fashion_data raw_data = Ok out
        /\ out
           = reset_index
               (drop_duplicates first
                  (List.filter (fun x => fgt (price (snd x)) fzero)
                     (dropna
                        (List.filter (fun x => is_valid_title (title (snd x)))
                           (range_index rows)))))
        /\ sublist (map snd out) (List.filter admissible rows)
        /\ distinct_keys key (map snd out)
        /\ (forall k : Key,
              first_with key k (map snd out)
              = first_with key k (List.filter admissible rows))
        /\ map fst out = seq 0 (length out))
  /\ @transform_fashion_data ascii_runtime [tshirt "10:00:00"; tshirt "10:00:00"]
     = Ok [(0, tshirt_row "10:00:00")]
  /\ price (tshirt_row "10:00:00") = float_of_Z 415840
  /\ drop_duplicates first
       (range_index [tshirt_row "10:00:00"; tshirt_row "10:00:00"])
     = [(0, tshirt_row "10:00:00")]
  /\ @transform_fashion_data ascii_runtime [tshirt "10:00:00"; tshirt "11:30:00"]
     = Ok [(0, tshirt_row "10:00:00")].
Proof.
  split; [|repeat split; now vm_compute].
  intros R raw_data.
  exists (map typed raw_data), (validator_steps (map typed raw_data)).
  split; [apply typed_all_normalised|].
  split; [apply transform_steps|].
  split; [reflexivity|].
  rewrite validator_steps_rows.
  destruct (keep_first_spec key (List.filter admissible (map typed raw_data)))
    as (Hsub & Hdist & Hfirst).
  repeat split; try easy. apply validator_steps_labels.
Qed.

(** ** The sink in append mode *)

Section FindFacts.
Context {A : Type} (kf : A -> Key).

Lemma first_with_app (k : Key) (l1 l2 : list A) :
  first_with kf k (l1 ++ l2) =
  match first_with kf k l1 with
  | Some x => Some x
  | None => first_with kf k l2
  end.
Proof.
  unfold first_with. induction l1 as [|x l1 IH]; simpl; [easy|].
  now destruct (key_eqb k (kf x)).
Qed.

Lemma first_with_found (k : Key) (l : list A) (b : A) :
  In b l -> key_eqb k (kf b) = true ->
  exists c, first_with kf k l = Some c /\ In c l /\ key_eqb k (kf c) = true.
Proof.
  unfold first_with. induction l as [|x l IH]; simpl; [easy|].
  intros Hin Hk. destruct (key_eqb k (kf x)) eqn:E.
  - exists x. auto.
  - destruct Hin as [->|Hin]; [congruence|].
    destruct (IH Hin Hk) as (c & Hc & Hi & Hkc). exists c. auto.
Qed.

Lemma last_with_app_r (k : Key) (l1 l2 : list A) (b : A) :
  In b l2 -> key_eqb k (kf b) = true ->
  exists c, last_with kf k (l1 ++ l2) = Some c /\ In c l2
            /\ last_with kf k l2 = Some c.
Proof.
  intros Hin Hk. unfold last_with. rewrite rev_app_distr, first_with_app.
  destruct (first_with_found k (rev l2) b) as (c & Hc & Hi & _);
    [now apply in_rev in Hin | easy |].
  rewrite Hc. exists c. repeat split; try easy. now apply in_rev.
Qed.

Lemma first_with_app_l (k : Key) (l1 l2 : list A) (a : A) :
  In a l1 -> key_eqb k (kf a) = true ->
  exists c, first_with kf k (l1 ++ l2) = Some c /\ In c l1
            /\ first_with kf k l1 = Some c.
Proof.
  intros Hin Hk. rewrite first_with_app.
  destruct (first_with_found k l1 a Hin Hk) as (c & Hc & Hi & _).
  rewrite Hc. now exists c.
Qed.

End FindFacts.

Lemma append_written (now file_path : string) (fs : Files)
    (existing : list Row) (df : DataFrame) :
  fs !! file_path = Some existing -> validate_dataframe df = true ->
  append_to_csv now df file_path fs
  = (true, <[file_path := rev (dedup_from key [] (rev (existing ++ map snd df)))]> fs).
Proof.
  intros Hfile Hvalid. unfold append_to_csv. rewrite Hvalid, Hfile. simpl.
  rewrite drop_duplicates_last_rows. unfold concat_ignore_index, read_csv.
  now rewrite !range_index_rows.
Qed.

(** C2. In append mode, when the file exists and the new frame passes the
    sink's validation (it has rows), the sink writes the old rows followed
    by the new rows, with duplicated keys (title, price, size, gender)
    dropped and the last occurrence kept: what is written is a selection in
    order of old ++ new, no two written rows share a key, and for every key
    the written row is the last row of old ++ new with that key. So when an
    old row and a new row collide, the row written for their key is a new
    row, the last new row with that key, whereas keep-first on the same
    rows, the validator's policy, keeps an old row. *)
Theorem append_keeps_last (now file_path : string) (fs : Files)
    (existing : list Row) (df : DataFrame) :
  fs !! file_path = Some existing ->
  validate_dataframe df = true ->
  exists written : list Row,
    load_fashion_data now df file_path "append" fs
    = (true, <[file_path := written]> fs)
    /\ append_to_csv now df file_path fs = (true, <[file_path := written]> fs)
    /\ written
       = map snd
           (drop_duplicates last (concat_ignore_index (read_csv existing) df))
    /\ sublist written (existing ++ map snd df)
    /\ distinct_keys key written
    /\ (forall k : Key,
          last_with key k written = last_with key k (existing ++ map snd df))
    /\ forall a b : Row,
        In a existing -> In b (map snd df) ->
        key_eqb (key a) (key b) = true ->
        (exists c : Row,
            last_with key (key a) written = Some c
            /\ In c (map snd df)
            /\ last_with key (key a) (map snd df) = Some c)
        /\ exists c : Row,
            first_with key (key a)
              (map snd
                 (drop_duplicates first
                    (concat_ignore_index (read_csv existing) df)))
            = Some c
            /\ In c existing
            /\ first_with key (key a) existing = Some c.
Proof.
  intros Hfile Hvalid.
  exists (rev (dedup_from key [] (rev (existing ++ map snd df)))).
  pose proof (append_written now file_path fs existing df Hfile Hvalid) as Happ.
  destruct (keep_last_spec key (existing ++ map snd df)) as (Hsub & Hdist & Hlast).
  split; [exact Happ|]. split; [exact Happ|]. split.
  { rewrite drop_duplicates_last_rows. unfold concat_ignore_index, read_csv.
    now rewrite !range_index_rows. }
  split; [easy|]. split; [easy|]. split; [easy|].
  intros a b Ha Hb Hab. split.
  - rewrite Hlast. now apply (last_with_app_r key (key a) existing _ b).
  - rewrite drop_duplicates_first_rows. unfold concat_ignore_index, read_csv.
    rewrite !range_index_rows.
    destruct (keep_first_spec key (existing ++ map snd df)) as (_ & _ & Hfirst).
    rewrite Hfirst.
    apply (first_with_app_l key (key a) existing _ a Ha), key_eqb_refl.
Qed.

Lemma append_keeps_last_witness :
  exists written : list Row,
    append_to_csv "20250615_100000" (range_index [tshirt_row "new"])
      "products.csv" {["products.csv" := [tshirt_row "old"]]}
    = (true, <["products.csv" := written]> {["products.csv" := [tshirt_row "old"]]})
    /\ last_with key (key (tshirt_row "old")) written = Some (tshirt_row "new").
Proof.
  destruct (append_keeps_last "20250615_100000" "products.csv"
              {["products.csv" := [tshirt_row "old"]]}
              [tshirt_row "old"] (range_index [tshirt_row "new"])
              ltac:(now vm_compute) eq_refl)
    as (written & _ & Happ & _ & _ & _ & _ & Hcollide).
  exists written. split; [exact Happ|].
  destruct (Hcollide (tshirt_row "old") (tshirt_row "new")
              (or_introl eq_refl) (or_introl eq_refl) eq_refl)
    as [(c & -> & _ & Hc) _].
  rewrite <- Hc. now vm_compute.
Defined.

(** C2 as stated fails for a new frame without rows: the sink's validation
    refuses the frame before the file is read, so the sink reports failure
    and the file stays as it was. A file that holds two rows with one key
    keeps both, whereas the rows of the file followed by no new row, with
    duplicated keys dropped and the last occurrence kept, are the second
    row alone. *)
Lemma append_empty_frame_counterexample :
  let existing := [tshirt_row "first"; tshirt_row "second"] in
  let fs : Files := {["products.csv" := existing]} in
  validate_dataframe [] = false
  /\ append_to_csv "20250615_100000" [] "products.csv" fs = (false, fs)
  /\ load_fashion_data "20250615_100000" [] "products.csv" "append" fs
     = (false, fs)
  /\ map snd (drop_duplicates last (concat_ignore_index (read_csv existing) []))
     = [tshirt_row "second"]
  /\ snd (append_to_csv "20250615_100000" [] "products.csv" fs) !! "products.csv"
     = Some [tshirt_row "first"; tshirt_row "second"]
  /\ ~ (forall (now file_path : string) (fs : Files) (existing : list Row)
               (df : DataFrame),
          fs !! file_path = Some existing ->
          snd (append_to_csv now df file_path fs) !! file_path
          = Some (map snd
                    (drop_duplicates last
                       (concat_ignore_index (read_csv existing) df)))).
Proof.
  cbv zeta. split; [easy|]. split; [easy|]. split; [easy|].
  split; [now vm_compute|]. split; [now vm_compute|].
  intros H.
  specialize (H "20250615_100000" "products.csv"
                {["products.csv" := [tshirt_row "first"; tshirt_row "second"]]}
                [tshirt_row "first"; tshirt_row "second"] []
                ltac:(now vm_compute)).
  vm_compute in H. congruence.
Qed.

(** The pipeline hands the sink none but frames that pass its validation:
    when a run in append mode succeeds on an existing file, the file holds
    the old rows and the rows of the run, the last occurrence of every key
    kept. *)
Lemma pipeline_appends_valid_frame (R : Runtime)
    (find_cards : pystr -> list Card) (fetch_webpage : pystr -> option pystr)
    (clock : pystr) (now : string) (url : pystr) (output_file : string)
    (max_pages : Z) (fs fs' : Files) (existing : list Row) :
  fs !! output_file = Some existing ->
  run_etl_pipeline find_cards fetch_webpage clock now url output_file "append"
    max_pages fs = (true, fs') ->
  exists (raw_data : list Product) (transformed_df : DataFrame),
    snd (extract_fashion_data find_cards fetch_webpage clock url max_pages)
    = Ok raw_data
    /\ transform_fashion_data (map raw_record raw_data) = Ok transformed_df
    /\ validate_dataframe transformed_df = true
    /\ fs' = <[output_file :=
               map snd
                 (drop_duplicates last
                    (concat_ignore_index (read_csv existing) transformed_df))]> fs.
Proof.
  intros Hfile. unfold run_etl_pipeline.
  destruct (snd (extract_fashion_data _ _ _ _ _)) as [[|x raw]|] eqn:Ex;
    try easy.
  destruct (transform_fashion_data _) as [[|y df]|] eqn:Et; try easy.
  intros Hrun. exists (x :: raw), (y :: df).
  split; [easy|]. split; [easy|]. split; [easy|].
  unfold load_fashion_data in Hrun.
  rewrite bool_decide_eq_true_2 in Hrun by easy.
  rewrite (append_written now output_file fs existing (y :: df) Hfile eq_refl)
    in Hrun.
  injection Hrun as <-. f_equal.
  rewrite drop_duplicates_last_rows. unfold concat_ignore_index, read_csv.
  now rewrite !range_index_rows.
Qed.

(** ** The card parser *)

Section ParserFacts.
Context {R : Runtime}.


Lemma scan_paragraph_dom (product : Product) (p : pystr) :
  dom product = six_keys -> dom (scan_paragraph product p) = six_keys.
Proof.
  intros H. unfold scan_paragraph.
  repeat (case_match; [rewrite dom_insert_L, H; unfold six_keys; set_solver|]).
  easy.
Qed.

Lemma scan_paragraph_untested (product : Product) (p : pystr) :
  tested (strip p) = false -> scan_paragraph product p = product.
Proof.
  unfold tested, scan_paragraph. intros H.
  apply orb_false_elim in H as [H Hg]. apply orb_false_elim in H as [H Hs].
  apply orb_false_elim in H as [Hr Hc].
  now rewrite Hr, Hc, Hs, Hg.
Qed.

Lemma scan_all_dom (ps : list pystr) (product : Product) :
  dom product = six_keys -> dom (fold_left scan_paragraph ps product) = six_keys.
Proof.
  revert product. induction ps as [|p ps IH]; intros product H; [easy|].
  simpl. now apply IH, scan_paragraph_dom.
Qed.

Lemma scan_keeps_rating (m : Product) (p v : pystr) :
  startswith (py "Rating:") (strip p) = false ->
  m !! "rating" = Some v -> scan_paragraph m p !! "rating" = Some v.
Proof.
  intros Hp Hm. unfold scan_paragraph. rewrite Hp.
  repeat (case_match; [now rewrite lookup_insert_ne|]). easy.
Qed.

Lemma scan_keeps_size (m : Product) (p v : pystr) :
  startswith (py "Size:") (strip p) = false ->
  m !! "size" = Some v -> scan_paragraph m p !! "size" = Some v.
Proof.
  intros Hp Hm. unfold scan_paragraph. rewrite Hp.
  repeat (case_match; [now rewrite lookup_insert_ne|]). easy.
Qed.

Lemma scan_keeps_gender (m : Product) (p v : pystr) :
  startswith (py "Gender:") (strip p) = false ->
  m !! "gender" = Some v -> scan_paragraph m p !! "gender" = Some v.
Proof.
  intros Hp Hm. unfold scan_paragraph. rewrite Hp.
  repeat (case_match; [now rewrite lookup_insert_ne|]). easy.
Qed.

Lemma scan_keeps_zero_colors (m : Product) (p : pystr) :
  (forall i ms, ~ occurs_at colors_re (strip p) i ms) ->
  m !! "colors" = Some (py "0") -> scan_paragraph m p !! "colors" = Some (py "0").
Proof.
  intros Hp Hm. apply re_search_None in Hp. unfold scan_paragraph. rewrite Hp.
  case_match; [now rewrite lookup_insert_ne|].
  case_match; [now rewrite lookup_insert_eq|].
  repeat (case_match; [now rewrite lookup_insert_ne|]). easy.
Qed.

Lemma scan_keeps_other (field : string) (m : Product) (p : pystr) :
  field <> "rating" -> field <> "colors" -> field <> "size" ->
  field <> "gender" ->
  scan_paragraph m p !! field = m !! field.
Proof.
  intros Hr Hc Hs Hg. unfold scan_paragraph.
  repeat (case_match; [now rewrite lookup_insert_ne|]). easy.
Qed.

Lemma scan_all_other (field : string) (ps : list pystr) (m : Product) :
  field <> "rating" -> field <> "colors" -> field <> "size" ->
  field <> "gender" ->
  fold_left scan_paragraph ps m !! field = m !! field.
Proof.
  intros Hr Hc Hs Hg. revert m. induction ps as [|p ps IH]; intros m; [easy|].
  simpl. now rewrite IH, scan_keeps_other.
Qed.

Lemma scan_all_keeps_if (field : string) (v : pystr) (cond : pystr -> Prop)
    (ps : list pystr) (m : Product) :
  (forall (m' : Product) (p : pystr),
      cond p -> m' !! field = Some v -> scan_paragraph m' p !! field = Some v) ->
  Forall cond ps -> m !! field = Some v ->
  fold_left scan_paragraph ps m !! field = Some v.
Proof.
  intros Hstep Hps. revert m.
  induction Hps as [|p ps Hp _ IH]; intros m Hm; [easy|].
  simpl. now apply IH, Hstep.
Qed.

Lemma parse_card_eq (timestamp : pystr) (card : Card) :
  parse_card timestamp card
  = <["timestamp" := timestamp]>
      (fold_left scan_paragraph (detail_paragraphs card) (defaults card)).
Proof. reflexivity. Qed.

Lemma defaults_dom (card : Card) : dom (defaults card) = six_keys.
Proof.
  unfold defaults. rewrite !dom_insert_L, dom_empty_L.
  unfold six_keys. set_solver.
Qed.

Lemma parse_card_dom (timestamp : pystr) (card : Card) :
  dom (parse_card timestamp card) = product_keys.
Proof.
  rewrite parse_card_eq, dom_insert_L, scan_all_dom by apply defaults_dom.
  unfold six_keys, product_keys. set_solver.
Qed.

(** A line that fails the four tests changes nothing, wherever it stands. *)
Lemma parse_card_untested (timestamp : pystr) (card : Card)
    (pre post : list pystr) (line : pystr) :
  tested (strip line) = false ->
  parse_card timestamp (with_paragraphs card (pre ++ line :: post))
  = parse_card timestamp (with_paragraphs card (pre ++ post)).
Proof.
  intros H. rewrite !parse_card_eq. f_equal. simpl.
  rewrite !fold_left_app. simpl. now rewrite scan_paragraph_untested.
Qed.

End ParserFacts.

Section RunFacts.
Context {R : Runtime}.
Variable find_cards : pystr -> list Card.
Variable fetch_webpage : pystr -> option pystr.

(** What holds of every product of every page holds of all the products
    collected. *)
Lemma scrape_all (P : Product -> Prop) (base_url timestamp : pystr)
    (todo p : nat) (st : Run) :
  (forall html_content,
      Forall P (parse_product_data find_cards html_content timestamp)) ->
  Forall P (all_products st) ->
  Forall P (all_products
              (scrape find_cards fetch_webpage base_url timestamp p todo st)).
Proof.
  intros Hpage. revert p st. induction todo as [|todo IH]; intros p st Hst; [easy|].
  simpl. destruct (fetch_webpage (page_url base_url p)) as [[|c html]|];
    try (now apply IH).
  pose proof (Hpage (c :: html)) as Hp.
  destruct (parse_product_data find_cards (c :: html) timestamp) as [|x pp];
    [easy|].
  apply IH. simpl. apply Forall_app. now split.
Qed.

End RunFacts.

(** C5. The parser is a total function of the page: it returns one product
    per card that BeautifulSoup finds, and every product has exactly the
    seven keys title, price, rating, colors, size, gender and timestamp,
    the time stamp being the one passed by the caller. A card without title
    element gets the title "Unknown", one without price element the price
    "Price Unavailable"; the rating is "Not Rated" when no detail line
    starts with "Rating:", the colours are "0" when no detail line holds an
    integer followed by blanks and "Colors", the size and the gender are
    "Unknown" when no detail line starts with "Size:", respectively
    "Gender:". Every product that a run of the driver returns has the seven
    keys and the one time stamp of the run. *)
Theorem parse_product_data_complete (R : Runtime)
    (find_cards : pystr -> list Card) (html_content timestamp : pystr) :
  (forall product : Product,
      In product (parse_product_data find_cards html_content timestamp) ->
      dom product = product_keys /\ product !! "timestamp" = Some timestamp)
  /\ (html_content <> [] ->
      parse_product_data find_cards html_content timestamp
      = map (parse_card timestamp) (find_cards html_content))
  /\ (forall card : Card,
      let product := parse_card timestamp card in
      dom product = product_keys
      /\ product !! "timestamp" = Some timestamp
      /\ product !! "title"
         = Some match title_element card with
                | Some t => strip t
                | None => py "Unknown"
                end
      /\ product !! "price"
         = Some match price_element card with
                | Some t => strip t
                | None => py "Price Unavailable"
                end
      /\ (Forall (fun p => startswith (py "Rating:") (strip p) = false)
            (detail_paragraphs card) ->
          product !! "rating" = Some (py "Not Rated"))
      /\ (Forall (fun p => forall i ms, ~ occurs_at colors_re (strip p) i ms)
            (detail_paragraphs card) ->
          product !! "colors" = Some (py "0"))
      /\ (Forall (fun p => startswith (py "Size:") (strip p) = false)
            (detail_paragraphs card) ->
          product !! "size" = Some (py "Unknown"))
      /\ (Forall (fun p => startswith (py "Gender:") (strip p) = false)
            (detail_paragraphs card) ->
          product !! "gender" = Some (py "Unknown")))
  /\ forall (fetch_webpage : pystr -> option pystr) (base_url : pystr)
        (max_pages : Z) (products : list Product),
      snd (extract_fashion_data find_cards fetch_webpage timestamp base_url
             max_pages) = Ok products ->
      forall product : Product,
        In product products ->
        dom product = product_keys /\ product !! "timestamp" = Some timestamp.
Proof.
  assert (Hcard : forall card : Card,
    dom (parse_card timestamp card) = product_keys
    /\ parse_card timestamp card !! "timestamp" = Some timestamp).
  { intros card. split; [apply parse_card_dom|].
    rewrite parse_card_eq. apply lookup_insert_eq. }
  assert (Hpage : forall html (product : Product),
    In product (parse_product_data find_cards html timestamp) ->
    dom product = product_keys /\ product !! "timestamp" = Some timestamp).
  { intros html product Hin. destruct html as [|c html]; [easy|].
    simpl in Hin. apply in_map_iff in Hin as (card & <- & _). apply Hcard. }
  split; [|split; [|split]].
  - apply Hpage.
  - intros Hne. now destruct html_content.
  - intros card product. destruct (Hcard card) as [Hdom Hts].
    split; [easy|]. split; [easy|]. unfold product. rewrite parse_card_eq.
    rewrite !lookup_insert_ne by easy.
    split; [now rewrite scan_all_other by easy|].
    split; [now rewrite scan_all_other by easy|].
    split; [|split; [|split]]; intros Hps.
    + apply (scan_all_keeps_if _ _ _ _ _
               (fun m p => scan_keeps_rating m p _) Hps).
      reflexivity.
    + apply (scan_all_keeps_if "colors" (py "0") _ _ _
               (fun m p => scan_keeps_zero_colors m p) Hps).
      reflexivity.
    + apply (scan_all_keeps_if _ _ _ _ _
               (fun m p => scan_keeps_size m p _) Hps).
      reflexivity.
    + apply (scan_all_keeps_if _ _ _ _ _
               (fun m p => scan_keeps_gender m p _) Hps).
      reflexivity.
  - intros fetch_webpage base_url max_pages products Hrun product Hin.
    unfold extract_fashion_data in Hrun. simpl in Hrun.
    destruct (max_pages <? 1)%Z; [easy|]. injection Hrun as <-.
    revert product Hin. apply List.Forall_forall.
    apply scrape_all; [|constructor].
    intros html. apply List.Forall_forall. apply Hpage.
Qed.

Lemma parse_product_data_complete_witness :
  let card := {| title_element := Some (py "Incomplete Product");
                 price_element := None;
                 detail_paragraphs := [] |} in
  @parse_card ascii_runtime (py "2025-06-15 10:00:00") card !! "rating"
  = Some (py "Not Rated").
Proof.
  exact (proj1 (proj2 (proj2 (proj2 (proj2
           (proj1 (proj2 (proj2 (parse_product_data_complete ascii_runtime
                                   (fun _ => []) [] (py "2025-06-15 10:00:00"))))
              {| title_element := Some (py "Incomplete Product");
                 price_element := None;
                 detail_paragraphs := [] |})))))
           (List.Forall_nil _)).
Defined.

(** C6, as the code has it. A detail line that, once trimmed, neither
    starts with "Rating:", nor contains "Colors", nor starts with "Size:",
    nor starts with "Gender:" changes nothing: wherever it stands among the
    detail lines of a card, the product parsed is the one parsed without
    it, and so are its rating, colours, size and gender. *)
Theorem untested_line_ignored (R : Runtime) (timestamp : pystr) (card : Card)
    (pre post : list pystr) (line : pystr) :
  startswith (py "Rating:") (strip line) = false ->
  contains (py "Colors") (strip line) = false ->
  startswith (py "Size:") (strip line) = false ->
  startswith (py "Gender:") (strip line) = false ->
  let with_line := parse_card timestamp (with_paragraphs card (pre ++ line :: post)) in
  let without := parse_card timestamp (with_paragraphs card (pre ++ post)) in
  with_line = without
  /\ with_line !! "rating" = without !! "rating"
  /\ with_line !! "colors" = without !! "colors"
  /\ with_line !! "size" = without !! "size"
  /\ with_line !! "gender" = without !! "gender".
Proof.
  intros Hr Hc Hs Hg with_line without.
  assert (E : with_line = without).
  { apply parse_card_untested. unfold tested. now rewrite Hr, Hc, Hs, Hg. }
  now rewrite E.
Qed.

Lemma untested_line_ignored_witness :
  let card := {| title_element := Some (py "T-shirt 1");
                 price_element := Some (py "$25.99");
                 detail_paragraphs := [] |} in
  @parse_card ascii_runtime (py "now")
    (with_paragraphs card [py "3 Colors"; py "Machine washable"; py "Size: M"])
  = @parse_card ascii_runtime (py "now")
      (with_paragraphs card [py "3 Colors"; py "Size: M"]).
Proof.
  exact (proj1 (untested_line_ignored ascii_runtime (py "now")
                  {| title_element := Some (py "T-shirt 1");
                     price_element := Some (py "$25.99");
                     detail_paragraphs := [] |}
                  [py "3 Colors"] [py "Size: M"] (py "Machine washable")
                  eq_refl eq_refl eq_refl eq_refl)).
Defined.

(** C6 as stated fails. The line "Available Colors" matches none of the four
    patterns of the specification, and after the line "3 Colors" it sets the
    colours back to "0"; the line "Rating:4" does not start with "Rating: "
    either, and it sets the rating. *)
Lemma stated_pattern_counterexample :
  let card := {| title_element := Some (py "T-shirt 1");
                 price_element := Some (py "$25.99");
                 detail_paragraphs := [] |} in
  ~ @stated_pattern ascii_runtime (py "Available Colors")
  /\ @parse_card ascii_runtime (py "now")
       (with_paragraphs card [py "3 Colors"; py "Available Colors"]) !! "colors"
     = Some (py "0")
  /\ @parse_card ascii_runtime (py "now")
       (with_paragraphs card [py "3 Colors"]) !! "colors"
     = Some (py "3")
  /\ ~ @stated_pattern ascii_runtime (py "Rating:4")
  /\ @parse_card ascii_runtime (py "now")
       (with_paragraphs card [py "Rating:4"]) !! "rating"
     = Some (py "Rating:4")
  /\ @parse_card ascii_runtime (py "now") (with_paragraphs card []) !! "rating"
     = Some (py "Not Rated").
Proof.
  assert (Hmiss : forall text : pystr,
    startswith (py "Rating: ") text = false ->
    @re_search ascii_runtime colors_re text = None ->
    startswith (py "Size: ") text = false ->
    startswith (py "Gender: ") text = false ->
    ~ @stated_pattern ascii_runtime text).
  { intros text Hr Hc Hs Hg [H|[(i & ms & H)|[H|H]]]; try congruence.
    now apply (proj1 (re_search_None colors_re text) Hc i ms). }
  cbv zeta. repeat split; try (now vm_compute).
  - apply Hmiss; now vm_compute.
  - apply Hmiss; now vm_compute.
Qed.

(** ** The pagination driver *)

Section DriverFacts.
Context {R : Runtime}.
Variable find_cards : pystr -> list Card.
Variable fetch_webpage : pystr -> option pystr.
Variables base_url timestamp : pystr.

Let outcome := page_outcome find_cards fetch_webpage base_url timestamp.
Let records := page_records find_cards fetch_webpage base_url timestamp.
Let run := scrape find_cards fetch_webpage base_url timestamp.

Lemma scrape_step (p todo : nat) (st : Run) :
  run p (S todo) st =
  let st1 := {| requested := requested st ++ [page_url base_url p];
                all_products := all_products st |} in
  match outcome p with
  | None => run (S p) todo st1
  | Some [] => st1
  | Some page_products =>
    run (S p) todo {| requested := requested st1;
                      all_products := all_products st1 ++ page_products |}
  end.
Proof.
  unfold run, outcome, page_outcome. simpl.
  destruct (fetch_webpage (page_url base_url p)) as [[|c html]|]; try easy.
  now destruct (parse_product_data find_cards (c :: html) timestamp).
Qed.

(** Without an empty page in the way, every page is requested. *)
Lemma scrape_run (todo p : nat) (st : Run) :
  (forall j, p <= j < p + todo -> outcome j <> Some []) ->
  run p todo st =
  {| requested := requested st ++ map (page_url base_url) (seq p todo);
     all_products := all_products st ++ concat (map records (seq p todo)) |}.
Proof.
  revert p st. induction todo as [|todo IH]; intros p st Hno.
  - destruct st. simpl. now rewrite !app_nil_r.
  - rewrite scrape_step. cbv zeta.
    pose proof (Hno p ltac:(lia)) as Hp.
    assert (Hrest : forall j, S p <= j < S p + todo -> outcome j <> Some [])
      by (intros j Hj; apply Hno; lia).
    unfold records, page_records. fold outcome. simpl.
    destruct (outcome p) as [[|x pp]|] eqn:E; [easy| |];
      rewrite (IH _ _ Hrest); simpl; unfold records, page_records; fold outcome;
      now rewrite <- !app_assoc.
Qed.

(** The first empty page ends the run: it is the last page requested. *)
Lemma scrape_stop (d p todo : nat) (st : Run) :
  d < todo -> outcome (p + d) = Some [] ->
  (forall j, p <= j < p + d -> outcome j <> Some []) ->
  run p todo st =
  {| requested := requested st ++ map (page_url base_url) (seq p (S d));
     all_products := all_products st ++ concat (map records (seq p d)) |}.
Proof.
  revert p todo st. induction d as [|d IH]; intros p todo st Hd Hend Hno.
  - destruct todo as [|todo]; [lia|]. rewrite scrape_step. cbv zeta.
    rewrite Nat.add_0_r in Hend. rewrite Hend. simpl. now rewrite app_nil_r.
  - destruct todo as [|todo]; [lia|]. rewrite scrape_step. cbv zeta.
    pose proof (Hno p ltac:(lia)) as Hp.
    assert (Hend' : outcome (S p + d) = Some [])
      by now replace (S p + d) with (p + S d) by lia.
    assert (Hrest : forall j, S p <= j < S p + d -> outcome j <> Some [])
      by (intros j Hj; apply Hno; lia).
    assert (Hd' : d < todo) by lia.
    unfold records, page_records. fold outcome. simpl.
    destruct (outcome p) as [[|x pp]|] eqn:E; [easy| |];
      rewrite (IH _ _ _ Hd' Hend' Hrest); simpl;
      unfold records, page_records; fold outcome;
      now rewrite <- !app_assoc.
Qed.

End DriverFacts.

(** C3, as the code has it. For every fetch collaborator and every bound
    [max_pages] of at least 1, the driver requests the pages 1, 2, ... in
    order. A page whose fetch gives no content ([None], or an empty text)
    contributes no records and the next page is requested. If page [k] is
    the first page that is fetched and parses to zero records, the pages
    requested are exactly 1 to [k], none after it, and the output is the
    records of the pages 1 to [k - 1] in page and card order. If there is no
    such page up to [max_pages], all the pages 1 to [max_pages] are
    requested and the output is the records of them all. *)
Theorem extract_fashion_data_pages (R : Runtime)
    (find_cards : pystr -> list Card) (fetch_webpage : pystr -> option pystr)
    (extraction_timestamp base_url : pystr) (max_pages : Z) :
  (1 <= max_pages)%Z ->
  let outcome := page_outcome find_cards fetch_webpage base_url extraction_timestamp in
  let records := page_records find_cards fetch_webpage base_url extraction_timestamp in
  (forall k : nat,
      1 <= k <= Z.to_nat max_pages ->
      outcome k = Some [] ->
      (forall j, 1 <= j < k -> outcome j <> Some []) ->
      extract_fashion_data find_cards fetch_webpage extraction_timestamp
        base_url max_pages
      = (map (page_url base_url) (seq 1 k),
         Ok (concat (map records (seq 1 (k - 1))))))
  /\ ((forall j, 1 <= j <= Z.to_nat max_pages -> outcome j <> Some []) ->
      extract_fashion_data find_cards fetch_webpage extraction_timestamp
        base_url max_pages
      = (map (page_url base_url) (seq 1 (Z.to_nat max_pages)),
         Ok (concat (map records (seq 1 (Z.to_nat max_pages))))))
  /\ (forall p : nat,
        fetch_webpage (page_url base_url p) = None
        \/ fetch_webpage (page_url base_url p) = Some [] ->
        records p = [])
  /\ forall (p : nat) (html_content : pystr),
      fetch_webpage (page_url base_url p) = Some html_content ->
      html_content <> [] ->
      records p = parse_product_data find_cards html_content extraction_timestamp.
Proof.
  intros Hmax outcome records.
  assert (Hok : (max_pages <? 1)%Z = false) by now apply Z.ltb_ge.
  unfold extract_fashion_data. rewrite Hok.
  split; [|split; [|split]].
  - intros k Hk Hend Hno.
    assert (Hk1 : S (k - 1) = k) by lia.
    rewrite (scrape_stop find_cards fetch_webpage base_url extraction_timestamp
               (k - 1) 1 (Z.to_nat max_pages)).
    + cbn [requested all_products app]. now rewrite Hk1.
    + lia.
    + change (1 + (k - 1)) with (S (k - 1)). now rewrite Hk1.
    + intros j Hj. apply Hno. lia.
  - intros Hno.
    rewrite (scrape_run find_cards fetch_webpage base_url extraction_timestamp);
      [easy|].
    intros j Hj. apply Hno. lia.
  - intros p Hp. unfold records, page_records, page_outcome.
    now destruct Hp as [-> | ->].
  - intros p html Hp Hne. unfold records, page_records, page_outcome.
    rewrite Hp. now destruct html.
Qed.

(** Page 3 of a ten-page run holds no card: the pages 1 to 3 are requested,
    the pages 4 to 10 are not, and the output is the records of the pages 1
    and 2. *)
Lemma extract_fashion_data_pages_witness :
  @extract_fashion_data ascii_runtime demo_cards demo_fetch
    (py "2025-06-15 10:00:00") demo_base 10
  = ([py "https://shop.example/"; py "https://shop.example/?page=2";
      py "https://shop.example/?page=3"],
     Ok (@parse_card ascii_runtime (py "2025-06-15 10:00:00") (demo_card "T-shirt 1")
         :: [@parse_card ascii_runtime (py "2025-06-15 10:00:00")
               (demo_card "Hoodie 2")])).
Proof.
  refine (eq_trans
            (proj1 (extract_fashion_data_pages ascii_runtime demo_cards demo_fetch
                      (py "2025-06-15 10:00:00") demo_base 10 ltac:(lia))
               3 ltac:(vm_compute; lia) ltac:(now vm_compute) _) _).
  - intros j Hj. assert (Hc : j = 1 \/ j = 2) by lia.
    destruct Hc as [-> | ->]; now vm_compute.
  - now vm_compute.
Defined.

(** C3 as stated fails for a bound below 1: the loop has no turn, and the
    closing report reads the loop variable, which is unbound; the call
    raises instead of returning the empty list. *)
Lemma max_pages_zero_counterexample :
  @extract_fashion_data ascii_runtime demo_cards demo_fetch
    (py "2025-06-15 10:00:00") demo_base 0
  = ([], Raise UnboundLocalError)
  /\ snd (@extract_fashion_data ascii_runtime demo_cards demo_fetch
            (py "2025-06-15 10:00:00") demo_base 0)
     <> Ok (concat
              (map (@page_records ascii_runtime demo_cards demo_fetch demo_base
                      (py "2025-06-15 10:00:00"))
                 (seq 1 (Z.to_nat 0)))).
Proof. split; now vm_compute. Qed.

(** * Further properties of the cleaners *)

Section BlankFacts.
Context {R : Runtime}.

Lemma lstrip_blank (b : pystr) : blank b -> lstrip b = [].
Proof. induction 1 as [|c b Hc _ IH]; simpl; [easy | now rewrite Hc]. Qed.

Lemma lstrip_app (s b : pystr) :
  lstrip (s ++ b) = match lstrip s with
                    | [] => lstrip b
                    | t => t ++ b
                    end.
Proof.
  induction s as [|c s IH]; simpl; [now destruct (lstrip b)|].
  now destruct (isspace c).
Qed.

Lemma lstrip_pad (a s : pystr) : blank a -> lstrip (a ++ s) = lstrip s.
Proof.
  intros Ha. rewrite lstrip_app, (lstrip_blank a Ha). reflexivity.
Qed.

Lemma blank_rev (b : pystr) : blank b -> blank (rev b).
Proof.
  intros H. apply List.Forall_forall. intros c Hc. apply in_rev in Hc.
  now apply (proj1 (List.Forall_forall _ _) H).
Qed.

Lemma rstrip_pad (s b : pystr) : blank b -> rstrip (s ++ b) = rstrip s.
Proof.
  intros Hb. unfold rstrip. rewrite rev_app_distr.
  now rewrite (lstrip_pad _ _ (blank_rev b Hb)).
Qed.

(** Blanks around a text do not survive [strip]. *)
Lemma strip_pad (a s b : pystr) :
  blank a -> blank b -> strip (a ++ s ++ b) = strip s.
Proof.
  intros Ha Hb. unfold strip. rewrite (lstrip_pad a _ Ha), lstrip_app.
  destruct (lstrip s) as [|c t] eqn:E.
  - now rewrite (lstrip_blank b Hb).
  - now rewrite (rstrip_pad (c :: t) b Hb).
Qed.

End BlankFacts.

Lemma ascii_lower_blank (b : pystr) :
  @blank ascii_runtime b -> map ascii_lower b = b.
Proof.
  induction 1 as [|c b Hc _ IH]; simpl; [easy|]. rewrite IH. f_equal.
  unfold ascii_lower. destruct ((65 <=? c) && (c <=? 90))%N eqn:E; [|easy].
  apply andb_true_iff in E as [E1 E2].
  apply N.leb_le in E1. apply N.leb_le in E2.
  simpl in Hc. unfold unicode_isspace in Hc.
  repeat (apply orb_true_iff in Hc as [Hc|Hc]);
    repeat (apply andb_true_iff in Hc as [? Hc]);
    repeat match goal with
           | H : (_ <=? _)%N = true |- _ => apply N.leb_le in H
           | H : (_ =? _)%N = true |- _ => apply N.eqb_eq in H
           end; lia.
Qed.

(** X1. [standardize_size] returns nothing but [None] and the six canonical
    sizes, whatever the input and the case tables; and, with the ASCII
    tables, standardising a standardised size changes nothing. *)
Theorem standardize_size_canonical :
  (forall (R : Runtime) (size_str : option pystr) (v : pystr),
      standardize_size size_str = Some v -> In v canonical_sizes)
  /\ forall size_str : option pystr,
      @standardize_size ascii_runtime (@standardize_size ascii_runtime size_str)
      = @standardize_size ascii_runtime size_str.
Proof.
  assert (Hrange : forall (R : Runtime) size_str v,
    standardize_size size_str = Some v -> In v canonical_sizes).
  { intros R size_str v. unfold standardize_size.
    destruct (falsy size_str || _); [easy|]. intros H.
    apply elem_of_list_to_map_2 in H. apply list_elem_of_In in H.
    simpl in H. unfold canonical_sizes. simpl.
    repeat (destruct H as [H|H]; [injection H as _ <-; tauto|]). easy. }
  split; [exact Hrange|].
  intros size_str.
  destruct (@standardize_size ascii_runtime size_str) as [v|] eqn:E; [|easy].
  apply Hrange in E. unfold canonical_sizes in E. simpl in E.
  repeat (destruct E as [<-|E]; [now vm_compute|]). easy.
Qed.

Lemma standardize_size_canonical_witness :
  In (py "XL") canonical_sizes.
Proof.
  exact (proj1 standardize_size_canonical ascii_runtime (Some (py " xl ")) (py "XL")
           ltac:(now vm_compute)).
Defined.

(** X2. [standardize_gender] returns nothing but [None], "Men", "Women" and
    "Unisex", whatever the input and the case tables; and, with the ASCII
    tables, standardising a standardised gender changes nothing. *)
Theorem standardize_gender_canonical :
  (forall (R : Runtime) (gender_str : option pystr) (v : pystr),
      standardize_gender gender_str = Some v -> In v canonical_genders)
  /\ forall gender_str : option pystr,
      @standardize_gender ascii_runtime
        (@standardize_gender ascii_runtime gender_str)
      = @standardize_gender ascii_runtime gender_str.
Proof.
  assert (Hrange : forall (R : Runtime) gender_str v,
    standardize_gender gender_str = Some v -> In v canonical_genders).
  { intros R gender_str v. unfold standardize_gender.
    destruct (falsy gender_str || _); [easy|]. intros H.
    apply elem_of_list_to_map_2 in H. apply list_elem_of_In in H.
    simpl in H. unfold canonical_genders. simpl.
    repeat (destruct H as [H|H]; [injection H as _ <-; tauto|]). easy. }
  split; [exact Hrange|].
  intros gender_str.
  destruct (@standardize_gender ascii_runtime gender_str) as [v|] eqn:E; [|easy].
  apply Hrange in E. unfold canonical_genders in E. simpl in E.
  repeat (destruct E as [<-|E]; [now vm_compute|]). easy.
Qed.

Lemma standardize_gender_canonical_witness :
  In (py "Women") canonical_genders.
Proof.
  exact (proj1 standardize_gender_canonical ascii_runtime (Some (py "WOMEN"))
           (py "Women") ltac:(now vm_compute)).
Defined.

(** X3. With the ASCII tables, blanks before and after a title never change
    its validity; in particular a title made of blanks is invalid. *)
Theorem is_valid_title_padding (a s b : pystr) :
  @blank ascii_runtime a -> @blank ascii_runtime b ->
  @is_valid_title ascii_runtime (Some (a ++ s ++ b))
  = @is_valid_title ascii_runtime (Some s)
  /\ @is_valid_title ascii_runtime (Some (a ++ b)) = false.
Proof.
  intros Ha Hb.
  assert (Hstrip : forall t : pystr,
    @strip ascii_runtime (@lower ascii_runtime (a ++ t ++ b))
    = @strip ascii_runtime (@lower ascii_runtime t)).
  { intros t. simpl. rewrite !map_app.
    rewrite (ascii_lower_blank a Ha), (ascii_lower_blank b Hb).
    now apply (@strip_pad ascii_runtime). }
  assert (Hblank : @is_valid_title ascii_runtime (Some (a ++ b)) = false).
  { unfold is_valid_title. destruct (falsy (Some (a ++ b))); [easy|].
    cbn [from_option id]. specialize (Hstrip []). simpl app in Hstrip.
    now rewrite Hstrip. }
  split; [|exact Hblank].
  destruct s as [|c s]; [exact Hblank|].
  unfold is_valid_title.
  replace (falsy (Some (a ++ (c :: s) ++ b))) with false
    by (now destruct a).
  cbn [falsy from_option id]. now rewrite Hstrip.
Qed.

Lemma is_valid_title_padding_witness :
  @is_valid_title ascii_runtime (Some (py "  T-shirt 1 "))
  = @is_valid_title ascii_runtime (Some (py "T-shirt 1")).
Proof.
  exact (proj1 (is_valid_title_padding (py "  ") (py "T-shirt 1") (py " ")
                  ltac:(repeat constructor) ltac:(repeat constructor))).
Defined.

(** X4. [clean_rating] never raises, whatever the input, and a score that it
    returns is a number (not NaN) greater than or equal to 0. *)
Theorem clean_rating_total_nonneg (R : Runtime) (rating_str : option pystr) :
  exists r : option float,
    clean_rating rating_str = Ok r
    /\ forall score : float,
        r = Some score -> isnan score = false /\ fge score fzero = true.
Proof.
  assert (Hnone : exists r : option float,
    Ok None = Ok r
    /\ forall score, r = Some score -> isnan score = false /\ fge score fzero = true)
    by (exists None; easy).
  destruct rating_str as [[|c s]|]; try exact Hnone.
  unfold clean_rating. cbn [falsy orb from_option id].
  destruct (bool_decide _); [exact Hnone|].
  destruct (contains _ _); [exact Hnone|].
  destruct (re_search rating_re (c :: s)) as [[i ms]|] eqn:E; [|exact Hnone].
  destruct (re_search_Some _ _ _ _ E) as [[Hm _] _].
  destruct (rating_match_float (c :: s) i ms Hm) as (v & -> & Hv).
  exists (Some v). split; [easy|]. intros score [= <-].
  now apply nonneg_float_ge.
Qed.

Lemma clean_rating_total_nonneg_witness :
  exists r : option float,
    @clean_rating ascii_runtime (Some (py "Rated 3.9 / 5")) = Ok r
    /\ isnan (float_of_ratio 39 10) = false.
Proof.
  destruct (clean_rating_total_nonneg ascii_runtime (Some (py "Rated 3.9 / 5")))
    as (r & Hr & Hscore).
  exists r. split; [exact Hr|].
  apply (Hscore (float_of_ratio 39 10)).
  assert (E : Ok r = Ok (Some (float_of_ratio 39 10)))
    by (rewrite <- Hr; now vm_compute).
  now injection E.
Defined.

Section CommaFacts.
Context {R : Runtime}.

Lemma without_commas_idem (s : pystr) :
  without_commas (without_commas s) = without_commas s.
Proof.
  unfold without_commas. rewrite filter_filter.
  apply List.filter_ext. intros c. now destruct (negb (c =? 44)%N).
Qed.

Lemma clean_price_by_token (s : pystr) :
  without_commas s <> py "Price Unavailable" ->
  clean_price (Some s) =
  match first_numeric_token (without_commas s) with
  | Some tok =>
    usd_price ← python_float tok;
    Ok (fmul usd_price (float_of_Z USD_TO_IDR_RATE))
  | None => Ok fzero
  end.
Proof.
  intros Hs. destruct s as [|c s]; [easy|].
  apply clean_price_token; [easy|].
  intros E. apply Hs. now rewrite E.
Qed.

End CommaFacts.

(** X5. Thousands separators never matter to [clean_price]: whatever the
    tables, a text whose comma-free form is not the sentinel is priced like
    its comma-free form; with the ASCII tables this holds of every text. *)
Theorem clean_price_ignores_commas :
  (forall (R : Runtime) (s : pystr),
      without_commas s <> py "Price Unavailable" ->
      clean_price (Some s) = clean_price (Some (without_commas s)))
  /\ forall s : pystr,
      @clean_price ascii_runtime (Some s)
      = @clean_price ascii_runtime (Some (without_commas s)).
Proof.
  assert (Hgen : forall (R : Runtime) (s : pystr),
    without_commas s <> py "Price Unavailable" ->
    clean_price (Some s) = clean_price (Some (without_commas s))).
  { intros R s Hs. rewrite (clean_price_by_token s Hs).
    rewrite (clean_price_by_token (without_commas s))
      by now rewrite without_commas_idem.
    now rewrite without_commas_idem. }
  split; [exact Hgen|].
  intros s.
  destruct (decide (without_commas s = py "Price Unavailable")) as [E|E];
    [|now apply Hgen].
  rewrite E.
  destruct (decide (s = py "Price Unavailable")) as [->|Hs]; [easy|].
  assert (Hne : s <> []) by (intros ->; now vm_compute in E).
  rewrite (@clean_price_token ascii_runtime s Hne Hs), E.
  now vm_compute.
Qed.

Lemma clean_price_ignores_commas_witness :
  @clean_price ascii_runtime (Some (py "$1,234.56"))
  = @clean_price ascii_runtime (Some (py "$1234.56")).
Proof.
  exact (proj1 clean_price_ignores_commas ascii_runtime (py "$1,234.56")
           ltac:(now vm_compute)).
Defined.

(** X6. [clean_colors] reads a minus sign: a run of at most 640 digits
    preceded by "-" gives the negative of its decimal value, a number of
    colours below 0 when the value is not 0. *)
Theorem clean_colors_negative (R : Runtime) (s : pystr) (ds : list N) :
  decimals s = Some ds -> s <> [] ->
  Forall (fun c => isspace c = false) s -> isspace 45 = false ->
  length s <= 640 ->
  clean_colors (Some (45%N :: s)) = Ok (Some (- Z.of_N (digits_value ds))%Z).
Proof.
  intros Hd Hne Hsp Hminus Hlen.
  rewrite clean_colors_total. cbn [falsy from_option id].
  unfold python_int.
  rewrite (strip_id (45%N :: s)) by now constructor.
  rewrite (int_digits_decimals s ds false Hd Hne).
  rewrite (decimals_length s ds Hd).
  replace (640 <? length s) with false; [easy|].
  symmetry. apply Nat.ltb_ge. lia.
Qed.

Lemma clean_colors_negative_witness :
  @clean_colors ascii_runtime (Some (py "-3")) = Ok (Some (-3)%Z).
Proof.
  exact (clean_colors_negative ascii_runtime (py "3") [3%N] eq_refl
           ltac:(easy) ltac:(repeat constructor) eq_refl
           ltac:(vm_compute; lia)).
Defined.

(** * Further properties of the validator *)

Section DedupMore.
Context {A : Type} (kf : A -> Key).

Lemma dedup_from_app (seen : list Key) (l1 l2 : list A) :
  dedup_from kf seen (l1 ++ l2)
  = dedup_from kf seen l1 ++ dedup_from kf (rev (map kf l1) ++ seen) l2.
Proof.
  revert seen. induction l1 as [|x l1 IH]; intros seen; [easy|].
  simpl app. rewrite !dedup_from_cons, IH. simpl map. simpl rev.
  rewrite <- app_assoc. simpl app.
  now destruct (existsb _ seen).
Qed.

(** Only the keys that are in [seen] matter, not their order or number. *)
Lemma dedup_from_seen_ext (s1 s2 : list Key) (l : list A) :
  (forall k, existsb (key_eqb k) s1 = existsb (key_eqb k) s2) ->
  dedup_from kf s1 l = dedup_from kf s2 l.
Proof.
  revert s1 s2. induction l as [|x l IH]; intros s1 s2 H; [easy|].
  rewrite !dedup_from_cons, (H (kf x)).
  rewrite (IH (kf x :: s1) (kf x :: s2)); [easy|].
  intros k. simpl. now rewrite H.
Qed.

Lemma dedup_from_seen_key (seen : list Key) (x : A) (l : list A) :
  existsb (key_eqb (kf x)) seen = true ->
  dedup_from kf seen (x :: l) = dedup_from kf seen l.
Proof.
  intros H. rewrite dedup_from_cons, H.
  apply dedup_from_seen_ext. intros k. simpl.
  destruct (key_eqb k (kf x)) eqn:E; [|easy].
  simpl. now rewrite (seen_equiv k (kf x) seen E).
Qed.

(** An element met before is dropped, wherever it comes again. *)
Lemma dedup_from_repeat (seen : list Key) (l1 l2 : list A) (x : A) :
  In x l1 -> dedup_from kf seen (l1 ++ x :: l2) = dedup_from kf seen (l1 ++ l2).
Proof.
  intros Hin. rewrite !dedup_from_app. f_equal.
  apply dedup_from_seen_key. rewrite existsb_app. apply orb_true_iff. left.
  apply existsb_exists. exists (kf x). split; [|apply key_eqb_refl].
  apply in_rev. rewrite rev_involutive. now apply in_map.
Qed.

End DedupMore.

Lemma range_index_app (a b : list Row) :
  range_index (a ++ b) = range_index a ++ zip (seq (length a) (length b)) b.
Proof.
  unfold range_index. rewrite length_app, seq_app.
  apply zip_with_app. now rewrite length_seq.
Qed.

(** X7. The validator never returns more rows than it was given records:
    the number of removed records that it reports is never negative. *)
Theorem transform_never_grows (R : Runtime) (raw_data : list RawRecord) :
  exists out : DataFrame,
    transform_fashion_data raw_data = Ok out
    /\ length out <= length raw_data.
Proof.
  exists (validator_steps (map typed raw_data)).
  split; [apply transform_steps|].
  rewrite validator_steps_eq, range_index_length.
  pose proof (sublist_length _ _
                (dedup_from_sublist key []
                   (List.filter admissible (map typed raw_data)))) as H1.
  pose proof (filter_length_le admissible (map typed raw_data)) as H2.
  rewrite length_map in H2. lia.
Qed.

(** X8. Records that come later never change what the validator makes of
    the records before them: the frame for [pre] is the beginning, labels
    included, of the frame for [pre ++ post]. *)
Theorem transform_prefix (R : Runtime) (pre post : list RawRecord) :
  exists out out' : DataFrame,
    transform_fashion_data pre = Ok out
    /\ transform_fashion_data (pre ++ post) = Ok out'
    /\ out `prefix_of` out'.
Proof.
  exists (validator_steps (map typed pre)),
         (validator_steps (map typed (pre ++ post))).
  split; [apply transform_steps|]. split; [apply transform_steps|].
  rewrite !validator_steps_eq, map_app, List.filter_app, dedup_from_app.
  rewrite range_index_app. now eexists.
Qed.

(** X9. A record that already stands in the input changes nothing when it
    comes again: the validator returns the same frame with and without the
    second copy. *)
Theorem transform_repeat (R : Runtime) (pre post : list RawRecord)
    (r : RawRecord) :
  In r pre ->
  transform_fashion_data (pre ++ r :: post) = transform_fashion_data (pre ++ post).
Proof.
  intros Hin. rewrite !transform_steps, !validator_steps_eq. do 2 f_equal.
  rewrite !map_app, !List.filter_app. simpl.
  destruct (admissible (typed r)) eqn:E; [|easy].
  apply dedup_from_repeat. apply filter_In. split; [|easy].
  now apply in_map.
Qed.

Lemma transform_repeat_witness :
  @transform_fashion_data ascii_runtime
    [tshirt "10:00:00"; bare "Hoodie 2" "10:00:00"; tshirt "10:00:00"]
  = @transform_fashion_data ascii_runtime
      [tshirt "10:00:00"; bare "Hoodie 2" "10:00:00"].
Proof.
  exact (transform_repeat ascii_runtime
           [tshirt "10:00:00"; bare "Hoodie 2" "10:00:00"] []
           (tshirt "10:00:00") (or_introl eq_refl)).
Defined.

(** * Further properties of the card parser *)

Section ParserMore.
Context {R : Runtime}.

Lemma parse_card_snoc (timestamp : pystr) (card : Card) (ps : list pystr)
    (line : pystr) (field : string) :
  field <> "timestamp" ->
  parse_card timestamp (with_paragraphs card (ps ++ [line])) !! field
  = scan_paragraph
      (fold_left scan_paragraph ps (defaults card)) line !! field.
Proof.
  intros Hf. rewrite parse_card_eq, lookup_insert_ne by easy.
  simpl. now rewrite fold_left_app.
Qed.

Lemma parse_card_lookup (timestamp : pystr) (card : Card) (field : string) :
  field <> "timestamp" ->
  parse_card timestamp card !! field
  = fold_left scan_paragraph (detail_paragraphs card) (defaults card) !! field.
Proof. intros Hf. now rewrite parse_card_eq, lookup_insert_ne. Qed.

(** The one field that a trimmed line can set: the first of the four tests
    that it passes decides. *)
Lemma scan_paragraph_one_field (m : Product) (p : pystr) (field : string) :
  (if startswith (py "Rating:") (strip p) then field <> "rating"
   else if contains (py "Colors") (strip p) then field <> "colors"
   else if startswith (py "Size:") (strip p) then field <> "size"
   else if startswith (py "Gender:") (strip p) then field <> "gender"
   else True) ->
  scan_paragraph m p !! field = m !! field.
Proof.
  unfold scan_paragraph.
  destruct (startswith (py "Rating:") (strip p));
    [intros H; rewrite lookup_insert_ne; [easy | congruence]|].
  destruct (contains (py "Colors") (strip p));
    [intros H; rewrite lookup_insert_ne; [easy | congruence]|].
  destruct (startswith (py "Size:") (strip p));
    [intros H; rewrite lookup_insert_ne; [easy | congruence]|].
  destruct (startswith (py "Gender:") (strip p));
    [intros H; rewrite lookup_insert_ne; [easy | congruence]|].
  easy.
Qed.

Lemma scan_keeps_colors (m : Product) (p v : pystr) :
  contains (py "Colors") (strip p) = false ->
  m !! "colors" = Some v -> scan_paragraph m p !! "colors" = Some v.
Proof.
  intros Hp Hm. unfold scan_paragraph. rewrite Hp.
  repeat (case_match; [now rewrite lookup_insert_ne|]). easy.
Qed.

End ParserMore.

(** X10. A detail line sets at most one field, the one of the first test
    that it passes: added at the end of the detail lines of a card, a line
    that starts with "Rating:" leaves every field but the rating as it was,
    even when it holds "Colors"; a line that holds "Colors" and does not
    start with "Rating:" leaves every field but the colours as it was, even
    when it starts with "Size:" or "Gender:"; and so on for "Size:" and
    "Gender:". *)
Theorem detail_line_sets_one_field (R : Runtime) (timestamp : pystr)
    (card : Card) (ps : list pystr) (line : pystr) (field : string) :
  (if startswith (py "Rating:") (strip line) then field <> "rating"
   else if contains (py "Colors") (strip line) then field <> "colors"
   else if startswith (py "Size:") (strip line) then field <> "size"
   else if startswith (py "Gender:") (strip line) then field <> "gender"
   else True) ->
  parse_card timestamp (with_paragraphs card (ps ++ [line])) !! field
  = parse_card timestamp (with_paragraphs card ps) !! field.
Proof.
  intros H. destruct (decide (field = "timestamp")) as [->|Hf].
  - now rewrite !parse_card_eq, !lookup_insert_eq.
  - rewrite parse_card_snoc, (parse_card_lookup _ (with_paragraphs card ps))
      by easy.
    now apply scan_paragraph_one_field.
Qed.

Lemma detail_line_sets_one_field_witness :
  @parse_card ascii_runtime (py "now")
    (with_paragraphs (demo_card "T-shirt 1") [py "Size: M"; py "Size: 3 Colors"])
    !! "size"
  = @parse_card ascii_runtime (py "now")
      (with_paragraphs (demo_card "T-shirt 1") [py "Size: M"]) !! "size".
Proof.
  exact (detail_line_sets_one_field ascii_runtime (py "now")
           (demo_card "T-shirt 1") [py "Size: M"] (py "Size: 3 Colors") "size"
           ltac:(vm_compute; easy)).
Defined.

(** X11. When several detail lines set a field, the last one decides. If a
    line starts with "Rating:" and no later line does, the rating is that
    line without "Rating: ", trimmed. If a line holds "Colors" without
    starting with "Rating:", and no later line holds "Colors", the colours
    are the integer before "Colors" in it, or "0" when it has none. If a
    line starts with "Size:" (respectively "Gender:") and passes none of
    the earlier tests, and no later line starts so, the size (the gender) is
    that line without "Size: " ("Gender: "), trimmed. *)
Theorem last_detail_line_wins (R : Runtime) (timestamp : pystr) (card : Card)
    (pre post : list pystr) (line : pystr) :
  let product :=
    parse_card timestamp (with_paragraphs card (pre ++ line :: post)) in
  let text := strip line in
  (startswith (py "Rating:") text = true ->
   Forall (fun p => startswith (py "Rating:") (strip p) = false) post ->
   product !! "rating" = Some (strip (replace (py "Rating: ") [] text)))
  /\ (startswith (py "Rating:") text = false ->
      contains (py "Colors") text = true ->
      Forall (fun p => contains (py "Colors") (strip p) = false) post ->
      product !! "colors"
      = Some match re_search colors_re text with
             | Some m => group 0 1 m
             | None => py "0"
             end)
  /\ (startswith (py "Rating:") text = false ->
      contains (py "Colors") text = false ->
      startswith (py "Size:") text = true ->
      Forall (fun p => startswith (py "Size:") (strip p) = false) post ->
      product !! "size" = Some (strip (replace (py "Size: ") [] text)))
  /\ (startswith (py "Rating:") text = false ->
      contains (py "Colors") text = false ->
      startswith (py "Size:") text = false ->
      startswith (py "Gender:") text = true ->
      Forall (fun p => startswith (py "Gender:") (strip p) = false) post ->
      product !! "gender" = Some (strip (replace (py "Gender: ") [] text))).
Proof.
  intros product text. unfold product.
  assert (Hsplit : forall field : string, field <> "timestamp" ->
    parse_card timestamp (with_paragraphs card (pre ++ line :: post)) !! field
    = fold_left scan_paragraph post
        (scan_paragraph (fold_left scan_paragraph pre (defaults card)) line)
      !! field).
  { intros field Hf. rewrite parse_card_lookup by easy. simpl.
    now rewrite fold_left_app. }
  split; [|split; [|split]].
  - intros Hr Hpost. rewrite Hsplit by easy.
    apply (scan_all_keeps_if _ _ _ _ _
             (fun m p => scan_keeps_rating m p _) Hpost).
    unfold scan_paragraph. fold text. rewrite Hr. apply lookup_insert_eq.
  - intros Hr Hc Hpost. rewrite Hsplit by easy.
    apply (scan_all_keeps_if _ _ _ _ _
             (fun m p => scan_keeps_colors m p _) Hpost).
    unfold scan_paragraph. fold text. rewrite Hr, Hc. apply lookup_insert_eq.
  - intros Hr Hc Hs Hpost. rewrite Hsplit by easy.
    apply (scan_all_keeps_if _ _ _ _ _
             (fun m p => scan_keeps_size m p _) Hpost).
    unfold scan_paragraph. fold text. rewrite Hr, Hc, Hs.
    apply lookup_insert_eq.
  - intros Hr Hc Hs Hg Hpost. rewrite Hsplit by easy.
    apply (scan_all_keeps_if _ _ _ _ _
             (fun m p => scan_keeps_gender m p _) Hpost).
    unfold scan_paragraph. fold text. rewrite Hr, Hc, Hs, Hg.
    apply lookup_insert_eq.
Qed.

Lemma last_detail_line_wins_witness :
  @parse_card ascii_runtime (py "now")
    (with_paragraphs (demo_card "T-shirt 1")
       [py "Rating: 3.0 / 5"; py "Rating: 4.5 / 5"; py "Size: M"]) !! "rating"
  = Some (py "4.5 / 5").
Proof.
  exact (proj1 (last_detail_line_wins ascii_runtime (py "now")
                  (demo_card "T-shirt 1") [py "Rating: 3.0 / 5"]
                  [py "Size: M"] (py "Rating: 4.5 / 5"))
           eq_refl ltac:(repeat constructor)).
Defined.

(** * From the parser to the validator *)

Section Handover.
Context {R : Runtime}.

Lemma price_sentinel_rejected (r : RawRecord) :
  raw_price r = Some (py "Price Unavailable") -> admissible (typed r) = false.
Proof.
  intros H. unfold admissible, typed. simpl. rewrite H.
  now rewrite !andb_false_r.
Qed.

Lemma rating_sentinel_rejected (r : RawRecord) :
  raw_rating r = Some (py "Not Rated") -> admissible (typed r) = false.
Proof.
  intros H. unfold admissible, complete, typed. simpl. rewrite H. simpl.
  now rewrite !andb_false_r.
Qed.

Lemma size_sentinel_rejected (r : RawRecord) :
  raw_size r = Some (py "Unknown") -> admissible (typed r) = false.
Proof.
  intros H. unfold admissible, complete, typed. simpl. rewrite H. simpl.
  now rewrite !andb_false_r.
Qed.

Lemma gender_sentinel_rejected (r : RawRecord) :
  raw_gender r = Some (py "Unknown") -> admissible (typed r) = false.
Proof.
  intros H. unfold admissible, complete, typed. simpl. rewrite H. simpl.
  now rewrite !andb_false_r.
Qed.

Lemma inadmissible_dropped (pre post : list RawRecord) (r : RawRecord) :
  admissible (typed r) = false ->
  transform_fashion_data (pre ++ r :: post)
  = transform_fashion_data (pre ++ post).
Proof.
  intros H. rewrite !transform_steps, !validator_steps_eq.
  rewrite !map_app, !List.filter_app. simpl. now rewrite H.
Qed.

(** The product of an incomplete card holds a sentinel, which its cleaner
    turns into an absent value or into the price 0. *)
Lemma incomplete_inadmissible (timestamp : pystr) (card : Card) :
  incomplete card ->
  admissible (typed (raw_record (parse_card timestamp card))) = false.
Proof.
  intros [H|[H|[H|H]]].
  - apply price_sentinel_rejected. simpl.
    rewrite parse_card_lookup, scan_all_other by easy.
    unfold defaults. rewrite !lookup_insert_ne by easy.
    now rewrite lookup_insert_eq, H.
  - apply rating_sentinel_rejected. simpl. rewrite parse_card_lookup by easy.
    now apply (scan_all_keeps_if _ _ _ _ _
                 (fun m p => scan_keeps_rating m p _) H).
  - apply size_sentinel_rejected. simpl. rewrite parse_card_lookup by easy.
    now apply (scan_all_keeps_if _ _ _ _ _
                 (fun m p => scan_keeps_size m p _) H).
  - apply gender_sentinel_rejected. simpl. rewrite parse_card_lookup by easy.
    now apply (scan_all_keeps_if _ _ _ _ _
                 (fun m p => scan_keeps_gender m p _) H).
Qed.

(** When no record is admissible, the validator returns the empty frame. *)
Lemma inadmissible_all_dropped (raw_data : list RawRecord) :
  List.Forall (fun r => admissible (typed r) = false) raw_data ->
  transform_fashion_data raw_data = Ok [].
Proof.
  intros H. rewrite transform_steps, validator_steps_eq.
  replace (List.filter admissible (map typed raw_data)) with (@nil Row);
    [easy|].
  induction H as [|r l Hr _ IH]; simpl; [easy|]. now rewrite Hr.
Qed.

End Handover.

(** X12. An incomplete card (one that lacks the price element, or a detail
    line starting with "Rating:", or one starting with "Size:", or one
    starting with "Gender:") never reaches the validated frame: the
    validator returns the same frame with and without the product parsed
    from it. *)
Theorem incomplete_card_dropped (R : Runtime) (timestamp : pystr) (card : Card)
    (pre post : list Product) :
  incomplete card ->
  transform_fashion_data
    (map raw_record (pre ++ parse_card timestamp card :: post))
  = transform_fashion_data (map raw_record (pre ++ post)).
Proof.
  intros H. rewrite !map_app. simpl. apply inadmissible_dropped.
  now apply incomplete_inadmissible.
Qed.

Lemma incomplete_card_dropped_witness :
  @transform_fashion_data ascii_runtime
    (map raw_record
       [@parse_card ascii_runtime (py "now") (demo_card "T-shirt 1");
        @parse_card ascii_runtime (py "now")
          (with_paragraphs (demo_card "Hoodie 2") [py "Size: L"; py "Gender: Men"])])
  = @transform_fashion_data ascii_runtime
      (map raw_record
         [@parse_card ascii_runtime (py "now") (demo_card "T-shirt 1")]).
Proof.
  apply (incomplete_card_dropped ascii_runtime (py "now")
           (with_paragraphs (demo_card "Hoodie 2") [py "Size: L"; py "Gender: Men"])
           [@parse_card ascii_runtime (py "now") (demo_card "T-shirt 1")] []).
  right. left. repeat constructor.
Defined.

(** * Further properties of the driver *)

Section DriverMore.
Context {R : Runtime}.
Variable find_cards : pystr -> list Card.
Variable fetch_webpage : pystr -> option pystr.
Variables base_url timestamp : pystr.

(** The loop requests consecutive pages, at most [todo] of them, and
    collects the records of the pages that it requested. *)
Lemma scrape_bounded (todo p : nat) (st : Run) :
  exists n : nat,
    n <= todo
    /\ scrape find_cards fetch_webpage base_url timestamp p todo st
       = {| requested := requested st ++ map (page_url base_url) (seq p n);
            all_products :=
              all_products st
              ++ concat (map (page_records find_cards fetch_webpage base_url
                                timestamp) (seq p n)) |}.
Proof.
  revert p st. induction todo as [|todo IH]; intros p st.
  - exists 0. split; [lia|]. destruct st. simpl. now rewrite !app_nil_r.
  - rewrite scrape_step. cbv zeta. cbn [requested all_products].
    destruct (page_outcome find_cards fetch_webpage base_url timestamp p)
      as [[|x pp]|] eqn:E.
    + exists 1. split; [lia|]. simpl. unfold page_records. rewrite E. simpl.
      now rewrite !app_nil_r.
    + destruct (IH (S p)
                  {| requested := requested st ++ [page_url base_url p];
                     all_products := all_products st ++ x :: pp |})
        as (n & Hn & ->).
      exists (S n). split; [lia|]. simpl. unfold page_records at 2.
      rewrite E. simpl. now rewrite <- !app_assoc.
    + destruct (IH (S p)
                  {| requested := requested st ++ [page_url base_url p];
                     all_products := all_products st |})
        as (n & Hn & ->).
      exists (S n). split; [lia|]. simpl. unfold page_records at 2.
      rewrite E. simpl. now rewrite <- !app_assoc.
Qed.

End DriverMore.

(** X13. Whatever the bound and the site, the driver requests the pages
    1, 2, ..., [n] for some [n] that does not exceed [max_pages], each once
    and in order (none at all when [max_pages] is below 1), and when it
    returns, it returns the records of exactly those pages. *)
Theorem extract_requests_bounded (R : Runtime)
    (find_cards : pystr -> list Card) (fetch_webpage : pystr -> option pystr)
    (extraction_timestamp base_url : pystr) (max_pages : Z) :
  exists n : nat,
    (Z.of_nat n <= Z.max 0 max_pages)%Z
    /\ fst (extract_fashion_data find_cards fetch_webpage extraction_timestamp
              base_url max_pages)
       = map (page_url base_url) (seq 1 n)
    /\ forall products : list Product,
        snd (extract_fashion_data find_cards fetch_webpage extraction_timestamp
               base_url max_pages) = Ok products ->
        products
        = concat (map (page_records find_cards fetch_webpage base_url
                         extraction_timestamp) (seq 1 n)).
Proof.
  unfold extract_fashion_data.
  destruct (scrape_bounded find_cards fetch_webpage base_url
              extraction_timestamp (Z.to_nat max_pages) 1
              {| requested := []; all_products := [] |}) as (n & Hn & ->).
  exists n. simpl. split; [lia|]. split; [easy|].
  intros products. destruct (max_pages <? 1)%Z; [easy|]. now intros [= <-].
Qed.

Lemma extract_requests_bounded_witness :
  exists n : nat,
    (Z.of_nat n <= 10)%Z
    /\ fst (@extract_fashion_data ascii_runtime demo_cards demo_fetch
              (py "now") demo_base 10)
       = map (page_url demo_base) (seq 1 n)
    /\ [@parse_card ascii_runtime (py "now") (demo_card "T-shirt 1");
        @parse_card ascii_runtime (py "now") (demo_card "Hoodie 2")]
       = concat (map (@page_records ascii_runtime demo_cards demo_fetch
                        demo_base (py "now")) (seq 1 n)).
Proof.
  destruct (extract_requests_bounded ascii_runtime demo_cards demo_fetch
              (py "now") demo_base 10) as (n & Hn & Hreq & Hrec).
  exists n. split; [exact Hn|]. split; [exact Hreq|].
  apply Hrec. now vm_compute.
Defined.

(** * Further properties of the sink and of the pipeline *)

Lemma string_length_app (s t : string) :
  String.length (s +:+ t) = String.length s + String.length t.
Proof. induction s as [|c s IH]; simpl; [easy | now rewrite IH]. Qed.

Lemma backup_path_fresh (now file_path : string) :
  backup_path now file_path <> file_path.
Proof.
  intros H. apply (f_equal String.length) in H.
  unfold backup_path in H. rewrite !string_length_app in H. simpl in H. lia.
Qed.

Lemma load_refuses (now : string) (output_path mode : string) (fs : Files) :
  load_fashion_data now [] output_path mode fs = (false, fs).
Proof.
  unfold load_fashion_data, append_to_csv, save_to_csv.
  now destruct (bool_decide (mode = "append")).
Qed.

Section Rejection.
Context {R : Runtime}.
Variable find_cards : pystr -> list Card.
Variable fetch_webpage : pystr -> option pystr.
Hypothesis no_complete_card :
  forall html_content : pystr, List.Forall incomplete (find_cards html_content).

Lemma page_records_inadmissible (base_url timestamp : pystr) (p : nat) :
  List.Forall (fun product => admissible (typed (raw_record product)) = false)
    (page_records find_cards fetch_webpage base_url timestamp p).
Proof using no_complete_card.
  unfold page_records, page_outcome.
  destruct (fetch_webpage _) as [[|c html_content]|]; try constructor.
  cbn [from_option id parse_product_data].
  apply List.Forall_forall. intros product Hin.
  apply in_map_iff in Hin. destruct Hin as (card & <- & Hcard).
  apply incomplete_inadmissible.
  pose proof (no_complete_card (c :: html_content)) as Hall.
  rewrite List.Forall_forall in Hall. now apply Hall.
Qed.

Lemma pages_inadmissible (base_url timestamp : pystr) (pages : list nat) :
  List.Forall (fun r => admissible (typed r) = false)
    (map raw_record
       (concat (map (page_records find_cards fetch_webpage base_url timestamp)
                  pages))).
Proof using no_complete_card.
  induction pages as [|p pages IH]; [constructor|].
  simpl. rewrite map_app. apply List.Forall_app. split; [|exact IH].
  pose proof (page_records_inadmissible base_url timestamp p) as H.
  induction H; simpl; now constructor.
Qed.

End Rejection.

(** X14. When no card of the site is complete, the run reports failure and
    writes nothing, whatever the bound on the pages, the mode and the files:
    either the driver raises (the bound is below 1), or it returns no
    product, or the validator leaves no row, and the sink is not called. *)
Theorem incomplete_site_writes_nothing (R : Runtime)
    (find_cards : pystr -> list Card) (fetch_webpage : pystr -> option pystr)
    (clock : pystr) (now : string) (url : pystr) (output_file mode : string)
    (max_pages : Z) (fs : Files) :
  (forall html_content : pystr,
      List.Forall incomplete (find_cards html_content)) ->
  run_etl_pipeline find_cards fetch_webpage clock now url output_file mode
    max_pages fs = (false, fs).
Proof.
  intros Hsite. unfold run_etl_pipeline, extract_fashion_data.
  destruct (scrape_bounded find_cards fetch_webpage url clock
              (Z.to_nat max_pages) 1
              {| requested := []; all_products := [] |}) as (n & _ & ->).
  cbn [snd all_products app].
  destruct (max_pages <? 1)%Z; [easy|].
  destruct (concat _) as [|x raw] eqn:E; [easy|].
  rewrite <- E.
  now rewrite (inadmissible_all_dropped _
                 (pages_inadmissible find_cards fetch_webpage Hsite url clock
                    (seq 1 n))).
Qed.

Lemma incomplete_site_writes_nothing_witness :
  @run_etl_pipeline ascii_runtime
    (fun _ => [with_paragraphs (demo_card "Hoodie 2")
                 [py "Size: L"; py "Gender: Men"]])
    demo_fetch (py "now") "20250615_100000" demo_base "products.csv"
    "overwrite" 10 {["products.csv" := [tshirt_row "old"]]}
  = (false, {["products.csv" := [tshirt_row "old"]]}).
Proof.
  apply (incomplete_site_writes_nothing ascii_runtime
           (fun _ => [with_paragraphs (demo_card "Hoodie 2")
                        [py "Size: L"; py "Gender: Men"]])
           demo_fetch (py "now") "20250615_100000" demo_base "products.csv"
           "overwrite" 10 {["products.csv" := [tshirt_row "old"]]}).
  intros html_content. constructor; [|constructor].
  right. left. repeat constructor.
Defined.

(** X15. After a successful run in a mode other than "append", the output
    file holds the rows of the validated frame, at least one, each of them
    admissible (valid title, no absent value, price above 0), and what the
    file held before the run is kept under the backup name. *)
Theorem pipeline_overwrite_result (R : Runtime)
    (find_cards : pystr -> list Card) (fetch_webpage : pystr -> option pystr)
    (clock : pystr) (now : string) (url : pystr) (output_file mode : string)
    (max_pages : Z) (fs fs' : Files) :
  mode <> "append" ->
  run_etl_pipeline find_cards fetch_webpage clock now url output_file mode
    max_pages fs = (true, fs') ->
  exists rows : list Row,
    fs' !! output_file = Some rows
    /\ rows <> []
    /\ Forall (fun row => admissible row = true) rows
    /\ forall old : list Row,
        fs !! output_file = Some old ->
        fs' !! backup_path now output_file = Some old.
Proof.
  intros Hmode. unfold run_etl_pipeline.
  destruct (snd (extract_fashion_data _ _ _ _ _)) as [[|x raw]|]; try easy.
  rewrite transform_steps.
  destruct (validator_steps _) as [|y df] eqn:E; [easy|].
  unfold load_fashion_data. rewrite bool_decide_eq_false_2 by easy.
  unfold save_to_csv. simpl. intros [= <-].
  exists (map snd (y :: df)). split; [apply lookup_insert_eq|].
  split; [easy|]. split.
  - rewrite <- E, validator_steps_rows.
    apply List.Forall_forall. intros row Hrow.
    apply list_elem_of_In in Hrow.
    eapply elem_of_sublist in Hrow; [|apply dedup_from_sublist].
    apply list_elem_of_In, filter_In in Hrow. now destruct Hrow.
  - intros old Hold. rewrite lookup_insert_ne by (symmetry; apply backup_path_fresh).
    unfold create_backup. rewrite Hold. apply lookup_insert_eq.
Qed.

Lemma pipeline_overwrite_result_witness :
  exists rows : list Row,
    snd (@run_etl_pipeline ascii_runtime demo_cards demo_fetch (py "now")
           "20250615_100000" demo_base "products.csv" "overwrite" 10
           {["products.csv" := [tshirt_row "old"]]})
      !! "products.csv" = Some rows
    /\ rows <> [].
Proof.
  destruct (pipeline_overwrite_result ascii_runtime demo_cards demo_fetch
              (py "now") "20250615_100000" demo_base "products.csv" "overwrite"
              10 {["products.csv" := [tshirt_row "old"]]} _
              ltac:(easy) ltac:(now vm_compute))
    as (rows & Hfile & Hne & _).
  exists rows. split; [|exact Hne].
  rewrite <- Hfile. now vm_compute.
Defined.

(** X16. The sink touches the output file and, when it overwrites, the
    backup of that file, and no other file; a frame without rows is refused
    in either mode, and then no file is touched at all, no backup made. *)
Theorem load_touches_only_output (now : string) (df : DataFrame)
    (output_path mode : string) (fs : Files) :
  (forall p : string,
      p <> output_path -> p <> backup_path now output_path ->
      snd (load_fashion_data now df output_path mode fs) !! p = fs !! p)
  /\ (mode = "append" ->
      forall p : string,
        p <> output_path ->
        snd (load_fashion_data now df output_path mode fs) !! p = fs !! p)
  /\ (df = [] -> load_fashion_data now df output_path mode fs = (false, fs)).
Proof.
  assert (Happ : forall p : string, p <> output_path ->
    snd (append_to_csv now df output_path fs) !! p = fs !! p).
  { intros p Hp. unfold append_to_csv, save_to_csv.
    destruct (negb (validate_dataframe df)); [easy|].
    destruct (fs !! output_path); simpl; now rewrite lookup_insert_ne. }
  split; [|split].
  - intros p Hp Hb. unfold load_fashion_data.
    destruct (bool_decide (mode = "append")); [now apply Happ|].
    unfold save_to_csv. destruct (negb (validate_dataframe df)); [easy|].
    simpl. rewrite lookup_insert_ne by easy.
    unfold create_backup. destruct (fs !! output_path); [|easy].
    now rewrite lookup_insert_ne.
  - intros -> p Hp. now apply Happ.
  - intros ->. apply load_refuses.
Qed.

Lemma load_touches_only_output_witness :
  snd (load_fashion_data "20250615_100000" (range_index [tshirt_row "new"])
         "products.csv" "overwrite"
         {["products.csv" := [tshirt_row "old"]; "other.csv" := []]})
    !! "other.csv"
  = ({["products.csv" := [tshirt_row "old"]; "other.csv" := []]} : Files)
      !! "other.csv".
Proof.
  exact (proj1 (load_touches_only_output "20250615_100000"
                  (range_index [tshirt_row "new"]) "products.csv" "overwrite"
                  {["products.csv" := [tshirt_row "old"]; "other.csv" := []]})
           "other.csv" ltac:(easy) ltac:(easy)).
Defined.

Section KeepLastMore.
Context {A : Type} (kf : A -> Key).

Lemma dedup_from_all_seen (seen : list Key) (l : list A) :
  (forall x, In x l -> existsb (key_eqb (kf x)) seen = true) ->
  dedup_from kf seen l = [].
Proof.
  revert seen. induction l as [|x l IH]; intros seen H; [easy|].
  rewrite dedup_from_seen_key by (apply H; now left).
  apply IH. intros y Hy. apply H. now right.
Qed.

Lemma dedup_from_id (seen : list Key) (l : list A) :
  distinct_keys kf l ->
  (forall x, In x l -> existsb (key_eqb (kf x)) seen = false) ->
  dedup_from kf seen l = l.
Proof.
  revert seen. induction l as [|x l IH]; intros seen Hd Hf; [easy|].
  destruct Hd as [Hx Hl].
  rewrite dedup_from_cons, (Hf x (or_introl eq_refl)). f_equal.
  apply IH; [easy|]. intros y Hy. simpl.
  rewrite (Hf y (or_intror Hy)), orb_false_r, key_eqb_sym.
  now apply (proj1 (List.Forall_forall _ _) Hx).
Qed.

Lemma seen_member (x : A) (l : list A) (seen : list Key) :
  In x l -> existsb (key_eqb (kf x)) (rev (map kf l) ++ seen) = true.
Proof.
  intros Hin. rewrite existsb_app. apply orb_true_iff. left.
  apply existsb_exists. exists (kf x). split; [|apply key_eqb_refl].
  apply in_rev. rewrite rev_involutive. now apply in_map.
Qed.

(** Keeping the last of every key in [w ++ n], where [w] is what keeping
    the last of every key in [e ++ n] gave, gives [w] again. *)
Lemma keep_last_again (e n : list A) :
  let w := rev (dedup_from kf [] (rev (e ++ n))) in
  rev (dedup_from kf [] (rev (w ++ n))) = w.
Proof.
  intros w. unfold w.
  rewrite !rev_app_distr, rev_involutive.
  rewrite (dedup_from_app kf [] (rev n) (rev e)).
  set (S := rev (map kf (rev n)) ++ []).
  set (N := dedup_from kf [] (rev n)).
  set (E := dedup_from kf S (rev e)).
  rewrite (dedup_from_app kf [] (rev n) (N ++ E)). fold S N.
  do 2 f_equal.
  rewrite (dedup_from_app kf S N E).
  rewrite (dedup_from_all_seen S N).
  2: { intros x Hx. apply seen_member. apply list_elem_of_In in Hx.
       eapply elem_of_sublist in Hx; [|apply dedup_from_sublist].
       now apply list_elem_of_In. }
  simpl.
  rewrite (dedup_from_seen_ext kf (rev (map kf N) ++ S) S E).
  - apply dedup_from_id; [apply dedup_from_distinct|].
    intros x Hx. now apply (dedup_from_fresh kf S (rev e)).
  - intros k. rewrite existsb_app.
    destruct (existsb (key_eqb k) (rev (map kf N))) eqn:Ek; [|easy].
    simpl. symmetry.
    apply existsb_exists in Ek as (k' & Hk' & Hkk').
    apply in_rev in Hk'.
    apply in_map_iff in Hk' as (x & <- & Hx).
    rewrite (seen_equiv k (kf x) S Hkk').
    apply seen_member. apply list_elem_of_In in Hx.
    eapply elem_of_sublist in Hx; [|apply dedup_from_sublist].
    now apply list_elem_of_In.
Qed.

End KeepLastMore.

(** X17. Appending is idempotent: when the file exists and the frame has
    rows, appending the same frame a second time succeeds and leaves every
    file as the first append left it. *)
Theorem append_twice (now file_path : string) (fs : Files)
    (existing : list Row) (df : DataFrame) :
  fs !! file_path = Some existing ->
  validate_dataframe df = true ->
  append_to_csv now df file_path (snd (append_to_csv now df file_path fs))
  = (true, snd (append_to_csv now df file_path fs)).
Proof.
  intros Hfile Hvalid.
  rewrite (append_written now file_path fs existing df Hfile Hvalid). simpl.
  rewrite (append_written now file_path _ _ df (lookup_insert_eq _ _ _) Hvalid).
  rewrite insert_insert_eq. do 2 f_equal.
  apply keep_last_again.
Qed.

Lemma append_twice_witness :
  let fs1 :=
    snd (append_to_csv "20250615_100000"
           (range_index [tshirt_row "new"; tshirt_row "newer"]) "products.csv"
           {["products.csv" := [tshirt_row "old"]]}) in
  append_to_csv "20250615_100000"
    (range_index [tshirt_row "new"; tshirt_row "newer"]) "products.csv" fs1
  = (true, fs1).
Proof.
  exact (append_twice "20250615_100000" "products.csv"
           {["products.csv" := [tshirt_row "old"]]} [tshirt_row "old"]
           (range_index [tshirt_row "new"; tshirt_row "newer"])
           ltac:(now vm_compute) eq_refl).
Defined.
